(** * plumage / spectra.py: synthetic spectra requested from an IDL session

    A shallow embedding of [spectra.py].  The module drives an external IDL
    process through [pidly]: it validates the stellar parameters, sends the
    textual commands that synthesise (and optionally resample) a spectrum,
    and reads the arrays [wave] and [spectrum] back.

    - Python numbers are [int]s (unbounded, [Z]) and [float]s (IEEE binary64,
      the [spec_float] of the Standard Library, with its infinities, NaN and
      signed zeros).
    - The [%] string formatting operator is interpreted from the format
      string, for the conversions this module uses.
    - The IDL process is an interface ([IDL]); the code is embedded in a
      state-and-exception monad over the process, the list of the commands
      sent to it, the standard output and the files written.
    - The Cannon, which [retrieve_standards] imports at its end, is an
      interface too ([TheCannon]). *)

From Stdlib Require Import ZArith QArith Bool List String Ascii Lia Lqa.
From Stdlib Require Import DecimalString.
From Stdlib Require Import SpecFloat.
Import ListNotations.

Local Open Scope string_scope.
Local Open Scope Z_scope.

(** ** Exceptions and outcomes *)

(** The exception classes that the module can raise.
    [ParameterOutOfBoundsException] is the class defined in [spectra.py];
    the others are Python built-ins (their messages, which change with the
    version of Python, are left out, the names that are unbound are kept),
    [IDLError] stands for whatever the [pidly] wrapper raises when a
    call to the process fails, and [CannonError] for whatever the import of
    [thecannon] or the library raises. *)
Inductive exn : Type :=
| ParameterOutOfBoundsException (msg : string)
| TypeError
| ValueError
| OverflowError
| NameError (name : string)
| UnboundLocalError (name : string)
| IDLError (msg : string)
| CannonError (msg : string).

Inductive outcome (A : Type) : Type :=
| Return (a : A)
| Raise (e : exn).
Arguments Return {A} a.
Arguments Raise {A} e.

(** Chaining of conversions. *)
Definition and_then {A B} (o : outcome A) (k : A -> outcome B) : outcome B :=
  match o with
  | Return a => k a
  | Raise e => Raise e
  end.

Definition is_out_of_bounds {A} (o : outcome A) : bool :=
  match o with
  | Raise (ParameterOutOfBoundsException _) => true
  | _ => false
  end.

(** ** Python numbers *)

Module PyNum.

(** binary64 *)
Definition prec : Z := 53.
Definition emax : Z := 1024.

Inductive number : Type :=
| PyInt (z : Z)
| PyFloat (f : spec_float).

(** [float(z)]: round to nearest, ties to even. *)
Definition Z2SF (z : Z) : spec_float := binary_normalize prec emax z 0 false.

(** A decimal literal [n/d] (as [5.5] is [55/10]): both integers are exact
    floats here and the division rounds correctly. *)
Definition float_lit (n d : Z) : spec_float :=
  SFdiv prec emax (Z2SF n) (Z2SF d).

(** The extended real a number denotes; NaN denotes none. *)
Inductive xreal : Type :=
| NegInf
| Fin (q : Q)
| PosInf.

Definition dyadic (n e : Z) : Q :=
  if 0 <=? e then inject_Z (n * 2 ^ e)
  else Qred (n # (2 ^ Z.to_pos (- e))%positive).

Definition float_value (f : spec_float) : option xreal :=
  match f with
  | S754_zero _ => Some (Fin 0)
  | S754_infinity s => Some (if s then NegInf else PosInf)
  | S754_nan => None
  | S754_finite s m e => Some (Fin (dyadic (cond_Zopp s (Zpos m)) e))
  end.

Definition num_value (x : number) : option xreal :=
  match x with
  | PyInt z => Some (Fin (inject_Z z))
  | PyFloat f => float_value f
  end.

Definition Qltb (x y : Q) : bool :=
  match Qcompare x y with Lt => true | _ => false end.

Definition xltb (a b : xreal) : bool :=
  match a, b with
  | NegInf, NegInf => false
  | NegInf, _ => true
  | Fin _, NegInf => false
  | Fin x, Fin y => Qltb x y
  | Fin _, PosInf => true
  | PosInf, _ => false
  end.

(** [a < b] and [a > b] on Python numbers: exact on the values (Python
    compares an int with a float exactly), false when either is NaN. *)
Definition num_lt (a b : number) : bool :=
  match num_value a, num_value b with
  | Some x, Some y => xltb x y
  | _, _ => false
  end.

Definition num_gt (a b : number) : bool := num_lt b a.

(** [int(x)], as the [%d] and [%i] conversions apply it: truncation
    towards zero. *)
Definition to_int (x : number) : outcome Z :=
  match x with
  | PyInt z => Return z
  | PyFloat (S754_zero _) => Return 0
  | PyFloat (S754_finite s m e) =>
      Return (cond_Zopp s (if 0 <=? e then Zpos m * 2 ^ e
                           else Zpos m / 2 ^ (- e)))
  | PyFloat (S754_infinity _) => Raise OverflowError
  | PyFloat S754_nan => Raise ValueError
  end.

(** [float(x)], as the [%f] conversion applies it. *)
Definition to_float (x : number) : outcome spec_float :=
  match x with
  | PyFloat f => Return f
  | PyInt z =>
      match Z2SF z with
      | S754_infinity _ => Raise OverflowError
      | f => Return f
      end
  end.

End PyNum.
Export PyNum.

(** Python values that reach a format operator in this module. *)
Inductive pyval : Type :=
| VNum (n : number)
| VNone.

Coercion VNum : number >-> pyval.

(** ** The [%] formatting operator *)

Module PyFormat.

(** The conversions [spectra.py] writes: [%d] and [%i] (an integer), [%f]
    (fixed point, six decimals) and [%0.2f] (fixed point with a precision;
    the [0] flag has no effect without a width). *)
Inductive conv : Type :=
| ConvInt
| ConvFixed (p : nat).

Inductive piece : Type :=
| Lit (c : ascii)
| Conv (k : conv).

Inductive mode : Type :=
| Text
| Flags
| Precision (p : nat).

Definition digit_of (c : ascii) : option nat :=
  let n := nat_of_ascii c in
  if andb (48 <=? n)%nat (n <=? 57)%nat then Some (n - 48)%nat else None.

(** [None] is an unsupported format: Python raises [ValueError] for an
    unknown conversion character or an incomplete format; the
    specifications outside the grammar above are left out. *)
Fixpoint parse (m : mode) (s : string) : option (list piece) :=
  match s with
  | EmptyString => match m with Text => Some [] | _ => None end
  | String c s' =>
      match m with
      | Text =>
          if Ascii.eqb c "%" then parse Flags s'
          else option_map (cons (Lit c)) (parse Text s')
      | Flags =>
          if Ascii.eqb c "0" then parse Flags s'
          else if Ascii.eqb c "." then parse (Precision 0) s'
          else if Ascii.eqb c "d" || Ascii.eqb c "i"
               then option_map (cons (Conv ConvInt)) (parse Text s')
          else if Ascii.eqb c "f"
               then option_map (cons (Conv (ConvFixed 6))) (parse Text s')
          else None
      | Precision p =>
          match digit_of c with
          | Some d => parse (Precision (10 * p + d)) s'
          | None =>
              if Ascii.eqb c "f"
              then option_map (cons (Conv (ConvFixed p))) (parse Text s')
              else None
          end
      end
  end.

(** Decimal digits of an integer, with a [-] when negative. *)
Definition dec (z : Z) : string := NilZero.string_of_int (Z.to_int z).

Fixpoint zeros (n : nat) : string :=
  match n with
  | O => ""
  | S n' => String "0" (zeros n')
  end.

(** Round [num/den] to the nearest integer, ties to even ([0 < den]). *)
Definition round_half_even (num den : Z) : Z :=
  let q := num / den in
  let r := num mod den in
  if 2 * r <? den then q
  else if den <? 2 * r then q + 1
  else if Z.even q then q else q + 1.

(** [|m * 2^e| * 10^p], rounded to an integer. *)
Definition scaled (m : positive) (e : Z) (p : nat) : Z :=
  if 0 <=? e then Zpos m * 2 ^ e * 10 ^ Z.of_nat p
  else round_half_even (Zpos m * 10 ^ Z.of_nat p) (2 ^ (- e)).

(** The digits of [n / 10^p] with [p] decimals. *)
Definition fixed_digits (p : nat) (n : Z) : string :=
  let ip := dec (n / 10 ^ Z.of_nat p) in
  match p with
  | O => ip
  | _ =>
      let fp := dec (n mod 10 ^ Z.of_nat p) in
      ip ++ "." ++ zeros (p - String.length fp) ++ fp
  end.

Definition minus (s : bool) : string := if s then "-" else "".

Definition fixed (p : nat) (f : spec_float) : string :=
  match f with
  | S754_nan => "nan"
  | S754_infinity s => minus s ++ "inf"
  | S754_zero s => minus s ++ fixed_digits p 0
  | S754_finite s m e => minus s ++ fixed_digits p (scaled m e p)
  end.

Definition convert (k : conv) (v : pyval) : outcome string :=
  match v with
  | VNone => Raise TypeError
  | VNum x =>
      match k with
      | ConvInt =>
          match to_int x with
          | Return z => Return (dec z)
          | Raise e => Raise e
          end
      | ConvFixed p =>
          match to_float x with
          | Return f => Return (fixed p f)
          | Raise e => Raise e
          end
      end
  end.

(** Arguments are consumed left to right; the first conversion that fails
    raises. *)
Fixpoint render (ps : list piece) (args : list pyval) : outcome string :=
  match ps with
  | [] =>
      match args with
      | [] => Return ""
      | _ :: _ => Raise TypeError
      end
  | Lit c :: ps' =>
      match render ps' args with
      | Return s => Return (String c s)
      | Raise e => Raise e
      end
  | Conv k :: ps' =>
      match args with
      | [] => Raise TypeError
      | a :: args' =>
          match convert k a with
          | Raise e => Raise e
          | Return x =>
              match render ps' args' with
              | Return s => Return (x ++ s)
              | Raise e => Raise e
              end
          end
      end
  end.

(** [fmt % args] *)
Definition format (fmt : string) (args : list pyval) : outcome string :=
  match parse Text fmt with
  | Some ps => render ps args
  | None => Raise ValueError
  end.

End PyFormat.

(** ** The IDL process behind [pidly] *)

(** [pidly.IDL] wraps a child IDL process.  What the process computes is
    not part of this module: it is an interface.
    - [spawn] is the process [pidly.IDL()] starts;
    - [ex cmd p] is [idl(cmd)]: the process after the command and, when the
      wrapper raises, the error;
    - [echo cmd p] is what [idl(cmd)] prints: the wrapper echoes the output
      of IDL for the command ([print_output] is [True] unless the caller
      says otherwise, and this module never does);
    - [ev name p] is the attribute read [idl.name], which evaluates the IDL
      variable [name] and converts it to an array. *)
Inductive reply (A : Type) : Type :=
| Done (a : A)
| Failed (msg : string).
Arguments Done {A} a.
Arguments Failed {A} msg.

Class IDL : Type := {
  process : Type;
  ndarray : Type;
  spawn : process;
  ex : string -> process -> process * option string;
  echo : string -> process -> list string;
  ev : string -> process -> reply ndarray
}.

(** What [np.savetxt] is given. *)
Inductive content {E : IDL} : Type :=
| Table (rows : list ndarray)
| Column (a : ndarray).

(** ** The Cannon

    [retrieve_standards] ends with the deferred [import thecannon as tc],
    [tc.vectorizer.PolynomialVectorizer(("teff", "logg", "feh"), 2)] and
    [tc.CannonModel(training_set, spectra, normalized_ivar, vectorizer)].
    The library is not part of this module either: it is an interface.
    For a training set (the rows under their index labels, with the columns
    [teff], [logg] and [feh]) and the table of spectra,
    - [CannonModel] is the error of the first of the three statements that
      raises, the import included, and [None] when the model is built;
    - [cannon_log] is what they print.
    The inverse variances handed to the model are [0.01] at every pixel of
    the spectra; the model is a local, dropped on return. *)
Definition training : Type := list (nat * (number * number * number)).

Class TheCannon {E : IDL} : Type := {
  CannonModel : training -> list ndarray -> option string;
  cannon_log : training -> list ndarray -> list string
}.

(** The state the module acts on: the IDL process behind the handle [idl],
    the commands sent so far (oldest first), the lines printed (by the
    module and, through the wrapper, by IDL) and the files written.  The
    module holds one handle at a time, so the state has one
    process. *)
Record world {E : IDL} : Type := {
  idl : process;
  calls : list string;
  stdout : list string;
  files : list (string * content)
}.

(** ** The monad of the embedding: state and exceptions *)

Definition M {E : IDL} (A : Type) : Type := world -> outcome A * world.

Definition ret {E : IDL} {A} (a : A) : M A := fun w => (Return a, w).

Definition raise {E : IDL} {A} (e : exn) : M A := fun w => (Raise e, w).

Definition bind {E : IDL} {A B} (m : M A) (k : A -> M B) : M B :=
  fun w =>
    match m w with
    | (Return a, w') => k a w'
    | (Raise e, w') => (Raise e, w')
    end.

Notation "x <- m ;; k" := (bind m (fun x => k))
  (at level 61, m at next level, right associativity).
Notation "' pat <- m ;; k" := (bind m (fun x => match x with pat => k end))
  (at level 61, pat pattern, m at next level, right associativity).
Notation "m ;; k" := (bind m (fun _ => k))
  (at level 61, right associativity).

Definition lift {E : IDL} {A} (o : outcome A) : M A := fun w => (o, w).

(** [idl(cmd)] *)
Definition call {E : IDL} (cmd : string) : M unit :=
  fun w =>
    let '(p, err) := ex cmd (idl w) in
    let w' := {| idl := p; calls := calls w ++ [cmd];
                 stdout := stdout w ++ echo cmd (idl w);
                 files := files w |} in
    match err with
    | None => (Return tt, w')
    | Some msg => (Raise (IDLError msg), w')
    end.

(** [idl.name] *)
Definition getattr {E : IDL} (name : string) : M ndarray :=
  fun w =>
    match ev name (idl w) with
    | Done a => (Return a, w)
    | Failed msg => (Raise (IDLError msg), w)
    end.

(** [pidly.IDL()]: the handle now names a fresh process. *)
Definition pidly_IDL {E : IDL} : M unit :=
  fun w => (Return tt, {| idl := spawn; calls := calls w;
                          stdout := stdout w; files := files w |}).

Definition print {E : IDL} (line : string) : M unit :=
  fun w => (Return tt, {| idl := idl w; calls := calls w;
                          stdout := stdout w ++ [line]; files := files w |}).

Definition savetxt {E : IDL} (name : string) (c : content) : M unit :=
  fun w => (Return tt, {| idl := idl w; calls := calls w;
                          stdout := stdout w;
                          files := files w ++ [(name, c)] |}).

(** [import thecannon as tc] and the two constructions that follow. *)
Definition the_cannon {E : IDL} {T : TheCannon} (training_set : training)
    (spectra : list ndarray) : M unit :=
  fun w =>
    let w' := {| idl := idl w; calls := calls w;
                 stdout := stdout w ++ cannon_log training_set spectra;
                 files := files w |} in
    match CannonModel training_set spectra with
    | None => (Return tt, w')
    | Some msg => (Raise (CannonError msg), w')
    end.

(** A module-level name that may not have been assigned. *)
Definition global {E : IDL} {A} (name : string) (v : option A) : M A :=
  match v with
  | Some a => ret a
  | None => raise (NameError name)
  end.

(** A local name that may not have been assigned yet. *)
Definition local {E : IDL} {A} (name : string) (v : option A) : M A :=
  match v with
  | Some a => ret a
  | None => raise (UnboundLocalError name)
  end.

(** [for x in items: st = body x st] *)
Fixpoint for_each {E : IDL} {A S} (body : A -> S -> M S) (items : list A)
    (st : S) : M S :=
  match items with
  | [] => ret st
  | x :: rest => st' <- body x st ;; for_each body rest st'
  end.

(** ** Module-level properties *)

Record properties : Type := {
  norm : Z;
  resolution : Z;
  wl_min : Z;
  wl_max : Z;
  n_pixels : option Z;
  wl_per_pixel : option number
}.

(** The top of [spectra.py], run with a given [using_echelle]: the other
    branch assigns [resolution], [wl_min] and [wl_max] twice (the 7000
    series gratings last) and neither [n_pixels] nor [wl_per_pixel]. *)
Definition module_properties (using_echelle : bool) : properties :=
  if using_echelle then
    {| norm := 1; resolution := 24000; wl_min := 3800; wl_max := 6800;
       n_pixels := Some 40000;
       wl_per_pixel := Some (PyFloat (float_lit (6800 - 3800) 40000)) |}
  else
    {| norm := 1; resolution := 7000; wl_min := 3600; wl_max := 9000;
       n_pixels := None; wl_per_pixel := None |}.

Definition using_echelle : bool := false.

(** ** [spectra.py] *)

Section Spectra.

Context {E : IDL}.

(** [idl_init]: start IDL, set the path and compile the grid routines. *)
Definition idl_init : M unit :=
  pidly_IDL ;;
  call "!path = '/home/thomasn/idl_libraries/coyote:' + !path" ;;
  call ".compile /home/thomasn/grids/gaussbroad.pro" ;;
  call ".compile /home/thomasn/grids/get_spec.pro" ;;
  call "grid='/home/thomasn/grids/grid_synthspec.sav'".

(** Python literals of the bounds. *)
Definition lit_5_5 : number := PyFloat (float_lit 55 10).
Definition lit_1_0 : number := PyFloat (float_lit 10 10).
Definition lit_4_0 : number := PyFloat (float_lit 40 10).

(** The [if]/[elif] chain that opens [get_idl_spectrum]: the exception of
    the first branch whose condition holds, if any. *)
Definition check_bounds (teff logg feh wl_min wl_max : number)
  : option exn :=
  if num_gt teff (PyInt 8000) || num_lt teff (PyInt 2500) then
    Some (ParameterOutOfBoundsException
            ("Temperature must be 2500 <=" ++ " Teff (K) <= 8000"))
  else if num_gt logg lit_5_5 || num_lt logg (PyInt (-1)) then
    Some (ParameterOutOfBoundsException
            ("Surface gravity must be -1 <=" ++ " logg (cgs) <= 5.5"))
  else if num_gt feh lit_1_0 || num_lt feh (PyInt (-5)) then
    Some (ParameterOutOfBoundsException
            ("Metallicity must be -5 <=" ++ " [Fe/H] (dex) <= 1"))
  else if num_gt wl_min wl_max || num_gt wl_max (PyInt 200000)
          || num_lt wl_min (PyInt 2000) then
    Some (ParameterOutOfBoundsException
            ("Wavelengths must be 2,000 <=" ++ " lambda (A) <= 60,000"))
  else None.

(** [get_idl_spectrum(idl, teff, logg, feh, wl_min, wl_max, resolution,
    norm, do_resample, wl_per_pixel)]; the handle [idl] is the process of
    the state.  The defaults [norm=1], [do_resample=False] and
    [wl_per_pixel=None] are written out by the callers. *)
Definition get_idl_spectrum (teff logg feh wl_min wl_max resolution
    norm : number) (do_resample : bool) (wl_per_pixel : pyval)
  : M (ndarray * ndarray) :=
  match check_bounds teff logg feh wl_min wl_max with
  | Some e => raise e
  | None =>
      call "CFe = 0. ;" ;;
      cmd <- lift (PyFormat.format
               ("spectrum = get_spec(%d, %f, %f, !null, CFe, %i, %i, ipres=%i, "
                ++ "norm=%i, grid=grid, wave=wave)")
               [VNum teff; VNum logg; VNum feh; VNum wl_min; VNum wl_max;
                VNum resolution; VNum norm]) ;;
      call cmd ;;
      (if do_resample then
         waveout <- lift (PyFormat.format "waveout = [%i+%f:%i-2*%f:%f]"
                            [VNum wl_min; wl_per_pixel; VNum wl_max;
                             wl_per_pixel; wl_per_pixel]) ;;
         call waveout ;;
         call "spectrum = resamp(double(wave), double(spectrum), double(waveout))" ;;
         call "wave = waveout"
       else ret tt) ;;
      wave <- getattr "wave" ;;
      spectrum <- getattr "spectrum" ;;
      ret (wave, spectrum)
  end.

(** A row of [standards.tsv]: the columns the module reads. *)
Record star : Type := {
  source_id : string;
  teff : number;
  logg : number;
  feh : number
}.

(** [frame[mask]]: the rows whose mask entry is [True], with their index
    labels. *)
Fixpoint select {A} (mask : list bool) (rows : list A) : list A :=
  match mask, rows with
  | b :: mask', r :: rows' =>
      if b then r :: select mask' rows' else select mask' rows'
  | _, _ => []
  end.

(** The index labels [read_csv] gives the rows: 0, 1, 2, ... *)
Definition indexed {A} (rows : list A) : list (nat * A) :=
  combine (seq 0 (List.length rows)) rows.

(** The locals a batch loop updates: [wave] (unbound before the first
    iteration) and the list [spectra]. *)
Definition batch : Type := option ndarray * list ndarray.

Context {T : TheCannon}.

(** [retrieve_standards(idl)] with the module-level names as [g] and the
    rows of [standards.tsv] as [standards].  The argument [idl] is
    rebound by [idl_init()] before it is used.  [np.array(spectra)] packs
    the rows, which come from one grid, into the table that is written and
    handed to the Cannon. *)
Definition retrieve_standards_with (g : properties) (standards : list star)
  : M unit :=
  let mask :=
    map (fun r => num_lt (teff r) (PyInt 5500) && num_gt (logg r) lit_4_0)
        standards in
  let training_set :=
    map (fun '(star_i, row) => (star_i, (teff row, logg row, feh row)))
        (select mask (indexed standards)) in
  idl_init ;;
  let standards := select mask (indexed standards) in
  '(wave, spectra) <-
     for_each
       (fun '(star_i, row) '((_, spectra) : batch) =>
          print (PyFormat.dec (Z.of_nat star_i)) ;;
          wl_per_pixel <- global "wl_per_pixel" (wl_per_pixel g) ;;
          '(wave, spec) <-
             get_idl_spectrum (teff row) (logg row) (feh row)
               (PyInt (wl_min g)) (PyInt (wl_max g)) (PyInt (resolution g))
               (PyInt 1) true (VNum wl_per_pixel) ;;
          ret (Some wave, (spectra ++ [spec])%list))
       standards (None, []) ;;
  savetxt "spectra_standards.csv" (Table spectra) ;;
  wave <- local "wave" wave ;;
  savetxt "spectra_wavelengths.csv" (Column wave) ;;
  the_cannon training_set spectra.

(** [retrieve_standards] in the module as it is written. *)
Definition retrieve_standards (standards : list star) : M unit :=
  retrieve_standards_with (module_properties using_echelle) standards.

(** [zip(teffs, loggs, fehs)] *)
Fixpoint zip3 {A B C} (xs : list A) (ys : list B) (zs : list C)
  : list (A * B * C) :=
  match xs, ys, zs with
  | x :: xs', y :: ys', z :: zs' => (x, y, z) :: zip3 xs' ys' zs'
  | _, _, _ => []
  end.

(** [enumerate(items)] *)
Definition enumerate {A} (items : list A) : list (nat * A) :=
  combine (seq 0 (List.length items)) items.

(** The body of the loop of [get_idl_spectra]. *)
Definition get_idl_spectra_body (wl_min wl_max resolution norm : number)
    (wl_per_pixel : pyval) (item : nat * (number * number * number))
    (b : batch) : M batch :=
  let '(star_i, (teff, logg, feh)) := item in
  let '(_, spectra) := b in
  line <- lift (PyFormat.format "Star %i, [%i, %0.2f, %0.2f]"
                  [VNum (PyInt (Z.of_nat star_i)); VNum teff; VNum logg;
                   VNum feh]) ;;
  print line ;;
  '(wave, spec) <-
     get_idl_spectrum teff logg feh wl_min wl_max resolution norm true
       wl_per_pixel ;;
  ret (Some wave, (spectra ++ [spec])%list).

(** [get_idl_spectra(idl, teffs, loggs, fehs, wl_min, wl_max, resolution,
    norm, do_resample, wl_per_pixel)] *)
Definition get_idl_spectra (teffs loggs fehs : list number)
    (wl_min wl_max resolution norm : number) (do_resample : bool)
    (wl_per_pixel : pyval) : M (ndarray * list ndarray) :=
  '(wave, spectra) <-
     for_each (get_idl_spectra_body wl_min wl_max resolution norm
                 wl_per_pixel)
       (enumerate (zip3 teffs loggs fehs)) (None, []) ;;
  wave <- local "wave" wave ;;
  ret (wave, spectra).

(** [save_spectra(wave, spectra)] *)
Definition save_spectra (wave : ndarray) (spectra : list ndarray) : M unit :=
  savetxt "sample_spectra.csv" (Table spectra) ;;
  savetxt "sample_wavelengths.csv" (Column wave).

End Spectra.

(** ** Specification vocabulary *)

(** Positions of a number relative to rational bounds.  A NaN is on no side
    of any bound. *)
Definition below (x : number) (b : Q) : Prop :=
  match num_value x with
  | Some NegInf => True
  | Some (Fin q) => (q < b)%Q
  | _ => False
  end.

Definition above (x : number) (b : Q) : Prop :=
  match num_value x with
  | Some PosInf => True
  | Some (Fin q) => (b < q)%Q
  | _ => False
  end.

Definition outside (lo hi : Q) (x : number) : Prop := below x lo \/ above x hi.

(** A finite value in the closed interval. *)
Definition within (lo hi : Q) (x : number) : Prop :=
  match num_value x with
  | Some (Fin q) => (lo <= q /\ q <= hi)%Q
  | _ => False
  end.

Definition xlt (a b : xreal) : Prop :=
  match a, b with
  | NegInf, NegInf => False
  | NegInf, _ => True
  | Fin _, NegInf => False
  | Fin x, Fin y => (x < y)%Q
  | Fin _, PosInf => True
  | PosInf, _ => False
  end.

(** [a > b] on the values. *)
Definition exceeds (a b : number) : Prop :=
  match num_value a, num_value b with
  | Some x, Some y => xlt y x
  | _, _ => False
  end.

(** Finite values with [a <= b]. *)
Definition ordered (a b : number) : Prop :=
  match num_value a, num_value b with
  | Some (Fin x), Some (Fin y) => (x <= y)%Q
  | _, _ => False
  end.

(** The domain the synthesis grid supports. *)
Definition valid_star (teff logg feh : number) : Prop :=
  within 2500 8000 teff /\ within (-1) 5.5 logg /\ within (-5) 1 feh.

Definition valid_range (wl_min wl_max : number) : Prop :=
  within 2000 200000 wl_min /\ within 2000 200000 wl_max
  /\ ordered wl_min wl_max.

(** The four checks of [get_idl_spectrum], in the order of the [elif]
    chain, what each one rejects and the message it raises. *)
Inductive check : Type :=
| Temperature
| Gravity
| Metallicity
| Wavelengths.

Definition violated (c : check) (teff logg feh wl_min wl_max : number)
  : Prop :=
  match c with
  | Temperature => outside 2500 8000 teff
  | Gravity => outside (-1) 5.5 logg
  | Metallicity => outside (-5) 1 feh
  | Wavelengths =>
      exceeds wl_min wl_max \/ above wl_max 200000 \/ below wl_min 2000
  end.

Definition before (c : check) : list check :=
  match c with
  | Temperature => []
  | Gravity => [Temperature]
  | Metallicity => [Temperature; Gravity]
  | Wavelengths => [Temperature; Gravity; Metallicity]
  end.

Definition message (c : check) : string :=
  match c with
  | Temperature => "Temperature must be 2500 <= Teff (K) <= 8000"
  | Gravity => "Surface gravity must be -1 <= logg (cgs) <= 5.5"
  | Metallicity => "Metallicity must be -5 <= [Fe/H] (dex) <= 1"
  | Wavelengths => "Wavelengths must be 2,000 <= lambda (A) <= 60,000"
  end.

Definition keyword (c : check) : string :=
  match c with
  | Temperature => "Temperature"
  | Gravity => "Surface gravity"
  | Metallicity => "Metallicity"
  | Wavelengths => "Wavelengths"
  end.

(** [needle in hay] *)
Fixpoint mentions (needle hay : string) : bool :=
  if String.prefix needle hay then true
  else match hay with
       | EmptyString => false
       | String _ hay' => mentions needle hay'
       end.

(** The texts the commands are expected to have, from integers and floats
    already converted. *)
Definition CFe_text : string := "CFe = 0. ;".

Definition get_spec_text (teff : Z) (logg feh : spec_float)
    (wl_min wl_max resolution norm : Z) : string :=
  "spectrum = get_spec(" ++ PyFormat.dec teff
  ++ ", " ++ PyFormat.fixed 6 logg
  ++ ", " ++ PyFormat.fixed 6 feh
  ++ ", !null, CFe, " ++ PyFormat.dec wl_min
  ++ ", " ++ PyFormat.dec wl_max
  ++ ", ipres=" ++ PyFormat.dec resolution
  ++ ", norm=" ++ PyFormat.dec norm
  ++ ", grid=grid, wave=wave)".

Definition synthesis_format : string :=
  "spectrum = get_spec(%d, %f, %f, !null, CFe, %i, %i, ipres=%i, "
  ++ "norm=%i, grid=grid, wave=wave)".

Definition star_line (star_i teff : Z) (logg feh : spec_float) : string :=
  "Star " ++ PyFormat.dec star_i ++ ", [" ++ PyFormat.dec teff
  ++ ", " ++ PyFormat.fixed 2 logg ++ ", " ++ PyFormat.fixed 2 feh ++ "]".

Definition waveout_text (wl_min wl_max : Z) (step : spec_float) : string :=
  "waveout = [" ++ PyFormat.dec wl_min ++ "+" ++ PyFormat.fixed 6 step
  ++ ":" ++ PyFormat.dec wl_max ++ "-2*" ++ PyFormat.fixed 6 step
  ++ ":" ++ PyFormat.fixed 6 step ++ "]".

Definition waveout_format : string := "waveout = [%i+%f:%i-2*%f:%f]".

Definition resamp_text : string :=
  "spectrum = resamp(double(wave), double(spectrum), double(waveout))".

Definition assign_text : string := "wave = waveout".

Definition idl_init_texts : list string :=
  [ "!path = '/home/thomasn/idl_libraries/coyote:' + !path";
    ".compile /home/thomasn/grids/gaussbroad.pro";
    ".compile /home/thomasn/grids/get_spec.pro";
    "grid='/home/thomasn/grids/grid_synthspec.sav'" ].

(** The mask of [retrieve_standards]: cool dwarfs. *)
Definition cool_dwarf (r : star) : bool :=
  num_lt (teff r) (PyInt 5500) && num_gt (logg r) lit_4_0.

(** [standards[mask][["teff","logg","feh"]]] *)
Definition training_set (standards : list star) : training :=
  map (fun '(star_i, row) => (star_i, (teff row, logg row, feh row)))
      (select (map cool_dwarf standards) (indexed standards)).

(** An IDL process that never fails a call or a read. *)
Definition reliable (E : IDL) : Prop :=
  (forall cmd p, snd (ex cmd p) = None)
  /\ (forall name p, exists a, ev name p = Done a).

(** ** Batches as sequences of requests *)

Section Requests.

Context {E : IDL}.

(** One request of the batch loop: the line printed, then the spectrum
    asked with resampling. *)
Definition request (wl_min wl_max resolution norm : number)
    (wl_per_pixel : pyval) (item : nat * (number * number * number))
  : M (ndarray * ndarray) :=
  let '(star_i, (teff, logg, feh)) := item in
  line <- lift (PyFormat.format "Star %i, [%i, %0.2f, %0.2f]"
                  [VNum (PyInt (Z.of_nat star_i)); VNum teff; VNum logg;
                   VNum feh]) ;;
  print line ;;
  get_idl_spectrum teff logg feh wl_min wl_max resolution norm true
    wl_per_pixel.

(** [served rq w items results w']: from [w], the requests for [items]
    are made one after the other, each from the state the one before
    left; all return, with [results] in the same order, and leave [w']. *)
Inductive served {A} (rq : A -> M (ndarray * ndarray))
  : world -> list A -> list (ndarray * ndarray) -> world -> Prop :=
| served_nil w : served rq w [] [] w
| served_cons w item r w1 items rs w2 :
    rq item w = (Return r, w1) ->
    served rq w1 items rs w2 ->
    served rq w (item :: items) (r :: rs) w2.

(** A loop body that makes the request, binds [wave] and appends the
    spectrum. *)
Definition collects {A} (rq : A -> M (ndarray * ndarray))
    (body : A -> batch -> M batch) : Prop :=
  forall item b w,
    body item b w
    = match rq item w with
      | (Return r, w1) => (Return (Some (fst r), (snd b ++ [snd r])%list), w1)
      | (Raise e, w1) => (Raise e, w1)
      end.

(** The value of the local [wave] after the requests returned [rs]. *)
Definition last_wave (start : option ndarray)
    (rs : list (ndarray * ndarray)) : option ndarray :=
  fold_left (fun _ r => Some (fst r)) rs start.

Definition int_like (x : number) : Prop := exists z, to_int x = Return z.

Definition float_like (x : number) : Prop := exists f, to_float x = Return f.

(** One request of the loop of [retrieve_standards], when [wl_per_pixel]
    is assigned: the index printed, then the spectrum asked with
    resampling. *)
Definition standard_request (g : properties) (step : number)
    (item : nat * star) : M (ndarray * ndarray) :=
  let '(star_i, row) := item in
  print (PyFormat.dec (Z.of_nat star_i)) ;;
  get_idl_spectrum (teff row) (logg row) (feh row) (PyInt (wl_min g))
    (PyInt (wl_max g)) (PyInt (resolution g)) (PyInt 1) true (VNum step).

(** The state after the files [fs] were written. *)
Definition written (w : world) (fs : list (string * content)) : world :=
  {| idl := idl w; calls := calls w; stdout := stdout w;
     files := (files w ++ fs)%list |}.

(** The state with the handle on another process. *)
Definition with_process (w : world) (p : process) : world :=
  {| idl := p; calls := calls w; stdout := stdout w; files := files w |}.

(** The state when [pidly.IDL()] has returned. *)
Definition spawned (w : world) : world :=
  {| idl := spawn; calls := calls w; stdout := stdout w;
     files := files w |}.

End Requests.

(** ** A request as a script of commands *)

Section Script.

Context {E : IDL}.

(** The state after [cmd] was sent and left the process as [p]. *)
Definition sent (w : world) (p : process) (cmd : string) : world :=
  {| idl := p; calls := (calls w ++ [cmd])%list;
     stdout := (stdout w ++ echo cmd (idl w))%list; files := files w |}.

(** Send the commands in order, up to the first that fails. *)
Fixpoint send_all (cmds : list string) : M unit :=
  match cmds with
  | [] => ret tt
  | c :: cs => call c ;; send_all cs
  end.

(** The process after it has received the commands. *)
Definition feed (cmds : list string) (p : process) : process :=
  fold_left (fun p c => fst (ex c p)) cmds p.

(** What the process prints while it receives the commands. *)
Fixpoint echoed (cmds : list string) (p : process) : list string :=
  match cmds with
  | [] => []
  | c :: cs => (echo c p ++ echoed cs (fst (ex c p)))%list
  end.

(** The state after the commands were all sent. *)
Definition after (w : world) (cmds : list string) : world :=
  {| idl := feed cmds (idl w); calls := (calls w ++ cmds)%list;
     stdout := (stdout w ++ echoed cmds (idl w))%list; files := files w |}.

(** The end of [get_idl_spectrum]: [return idl.wave, idl.spectrum]. *)
Definition read_back : M (ndarray * ndarray) :=
  wave <- getattr "wave" ;;
  spectrum <- getattr "spectrum" ;;
  ret (wave, spectrum).

(** What an accepted request sends, from the texts of its two formatted
    commands: the commands in order and, when a text could not be
    formatted, the exception raised once the commands before it were
    sent. *)
Definition script (synthesis waveout : outcome string)
    (do_resample : bool) : list string * option exn :=
  match synthesis with
  | Raise e => ([CFe_text], Some e)
  | Return cmd =>
      if do_resample then
        match waveout with
        | Raise e => ([CFe_text; cmd], Some e)
        | Return grid =>
            ([CFe_text; cmd; grid; resamp_text; assign_text], None)
        end
      else ([CFe_text; cmd], None)
  end.

Definition play (s : list string * option exn) : M (ndarray * ndarray) :=
  send_all (fst s) ;;
  match snd s with
  | Some e => raise e
  | None => read_back
  end.

End Script.

(** "The message identifies the ordering as the constraint that failed":
    whenever [get_idl_spectrum] raises it, [wl_min > wl_max]. *)
Definition identifies_ordering (msg : string) : Prop :=
  forall (E : IDL) (w w' : world)
         (teff logg feh wl_min wl_max resolution norm : number)
         (do_resample : bool) (wl_per_pixel : pyval),
    get_idl_spectrum teff logg feh wl_min wl_max resolution norm do_resample
      wl_per_pixel w
    = (Raise (ParameterOutOfBoundsException msg), w') ->
    exceeds wl_min wl_max.

(** ** Concrete processes, to run the embedding *)

(** A process that records the commands it was sent; it reports the
    modules it compiles and is silent otherwise; reading a variable gives
    its name and the number of commands received so far. *)
Definition echo_idl : IDL := {|
  process := list string;
  ndarray := string * nat;
  spawn := [];
  ex := fun cmd p => ((p ++ [cmd])%list, None);
  echo := fun cmd _ =>
    if String.prefix ".compile" cmd then ["% Compiled module."] else [];
  ev := fun name p => Done (name, List.length p)
|}.

(** An installation of [thecannon] that builds the model, silently. *)
Definition demo_cannon : @TheCannon echo_idl := {|
  CannonModel := fun _ _ => None;
  cannon_log := fun _ _ => []
|}.

(** An installation without [thecannon]: the import fails. *)
Definition no_cannon : @TheCannon echo_idl := {|
  CannonModel := fun _ _ => Some "No module named 'thecannon'";
  cannon_log := fun _ _ => []
|}.

Definition fresh_world (E : IDL) : world :=
  {| idl := spawn; calls := []; stdout := []; files := [] |}.

Definition py_float (n d : Z) : number := PyFloat (float_lit n d).

Definition w0 : @world echo_idl := fresh_world echo_idl.

(** Two stars in the domain and a step of the grid. *)
Definition demo_teffs : list number := [PyInt 5000; py_float 45005 10].
Definition demo_loggs : list number := [py_float 45 10; PyInt 5].
Definition demo_fehs : list number := [py_float 0 10; py_float (-25) 100].
Definition demo_step : number := py_float 135 1000.

(** What the batch of the two stars returns on the recording process, and
    the state it leaves. *)
Definition demo_result
  : (@ndarray echo_idl * list (@ndarray echo_idl)) * @world echo_idl :=
  Eval vm_compute in
    match @get_idl_spectra echo_idl demo_teffs demo_loggs demo_fehs
            (PyInt 3600) (PyInt 9000) (PyInt 7000) (PyInt 1) true
            (VNum demo_step) w0 with
    | (Return r, w') => (r, w')
    | (Raise _, w') => ((("", 0%nat), []), w')
    end.

(** A table of three standards: a cool dwarf, a hotter star and a second
    cool dwarf. *)
Definition HD1 : star :=
  {| source_id := "HD 1"; teff := PyInt 5000; logg := py_float 45 10;
     feh := py_float 0 10 |}.
Definition HD2 : star :=
  {| source_id := "HD 2"; teff := PyInt 6000; logg := py_float 45 10;
     feh := py_float 0 10 |}.
Definition HD3 : star :=
  {| source_id := "HD 3"; teff := py_float 40005 10; logg := py_float 48 10;
     feh := py_float (-5) 10 |}.
Definition demo_standards : list star := [HD1; HD2; HD3].

(** A cool dwarf too cold for the grid. *)
Definition HD4 : star :=
  {| source_id := "HD 4"; teff := PyInt 2000; logg := py_float 45 10;
     feh := py_float 0 10 |}.

(** A process that fails every call and every read. *)
Definition down_idl : IDL := {|
  process := unit;
  ndarray := unit;
  spawn := tt;
  ex := fun _ p => (p, Some "IDL is down");
  echo := fun _ _ => [];
  ev := fun _ _ => Failed "IDL is down"
|}.

(** * Properties *)

(** ** Tactics *)

(** Closes the comparisons that a constructor decides. *)
Ltac decided :=
  split; intros ?H; solve [ trivial | discriminate | contradiction ].

(** Evaluates the parse of the format string of the goal. *)
Ltac parse_format :=
  match goal with
  | |- context [PyFormat.parse PyFormat.Text ?fmt] =>
      let ps := eval vm_compute in (PyFormat.parse PyFormat.Text fmt) in
      change (PyFormat.parse PyFormat.Text fmt) with ps
  end.

(** Decides by computation a closed statement on the positions of concrete
    numbers. *)
Ltac concrete :=
  vm_compute; repeat split;
  solve [ reflexivity | discriminate | tauto
        | intuition discriminate | intuition congruence ].

(** The script stops at ["CFe = 0. ;"] when the synthesis command cannot be
    formatted. *)
Ltac short_script :=
  let k := fresh "k" in
  let Hk := fresh "Hk" in
  intros [|[|k]] Hk;
  [ left; simpl; apply app_nil_r
  | right; left; reflexivity
  | simpl in Hk; lia ].


(** ** Comparisons of Python numbers *)

Lemma Qltb_spec (x y : Q) : Qltb x y = true <-> (x < y)%Q.
Proof.
  unfold Qltb. rewrite Qlt_alt.
  destruct (x ?= y)%Q; split; congruence.
Qed.

Lemma xltb_spec (a b : xreal) : xltb a b = true <-> xlt a b.
Proof.
  destruct a, b; simpl; try apply Qltb_spec; decided.
Qed.

Lemma num_lt_int (x : number) (z : Z) :
  num_lt x (PyInt z) = true <-> below x (inject_Z z).
Proof.
  unfold num_lt, below. simpl.
  destruct (num_value x) as [[| q |]|]; simpl;
    try apply Qltb_spec; decided.
Qed.

Lemma num_gt_int (x : number) (z : Z) :
  num_gt x (PyInt z) = true <-> above x (inject_Z z).
Proof.
  unfold num_gt, num_lt, above. simpl.
  destruct (num_value x) as [[| q |]|]; simpl;
    try apply Qltb_spec; decided.
Qed.

Lemma num_gt_float (x : number) (n d : Z) (q : Q) :
  num_value (PyFloat (float_lit n d)) = Some (Fin q) ->
  num_gt x (PyFloat (float_lit n d)) = true <-> above x q.
Proof.
  intros Hq. unfold num_gt, num_lt, above. rewrite Hq.
  destruct (num_value x) as [[| r |]|]; simpl;
    try apply Qltb_spec; decided.
Qed.

Lemma num_gt_exceeds (a b : number) : num_gt a b = true <-> exceeds a b.
Proof.
  unfold num_gt, num_lt, exceeds.
  destruct (num_value b) as [y|], (num_value a) as [x|];
    try apply xltb_spec; decided.
Qed.

Lemma lit_5_5_value : num_value lit_5_5 = Some (Fin (11 # 2)).
Proof. reflexivity. Qed.

Lemma lit_1_0_value : num_value lit_1_0 = Some (Fin 1).
Proof. reflexivity. Qed.

Lemma lit_4_0_value : num_value lit_4_0 = Some (Fin 4).
Proof. reflexivity. Qed.

Lemma num_gt_5_5 (x : number) : num_gt x lit_5_5 = true <-> above x 5.5.
Proof.
  unfold lit_5_5. rewrite (num_gt_float x 55 10 (11 # 2) lit_5_5_value).
  unfold above. destruct (num_value x) as [[| r |]|]; try tauto.
  split; intros H; lra.
Qed.

Lemma num_gt_1_0 (x : number) : num_gt x lit_1_0 = true <-> above x 1.
Proof. apply (num_gt_float x 10 10 1 lit_1_0_value). Qed.

Lemma num_gt_4_0 (x : number) : num_gt x lit_4_0 = true <-> above x 4.
Proof. apply (num_gt_float x 40 10 4 lit_4_0_value). Qed.

(** ** The bounds checks *)

Lemma teff_check (teff : number) :
  num_gt teff (PyInt 8000) || num_lt teff (PyInt 2500) = true
  <-> outside 2500 8000 teff.
Proof.
  rewrite orb_true_iff, num_gt_int, num_lt_int. unfold outside. tauto.
Qed.

Lemma logg_check (logg : number) :
  num_gt logg lit_5_5 || num_lt logg (PyInt (-1)) = true
  <-> outside (-1) 5.5 logg.
Proof.
  rewrite orb_true_iff, num_gt_5_5, num_lt_int. unfold outside. tauto.
Qed.

Lemma feh_check (feh : number) :
  num_gt feh lit_1_0 || num_lt feh (PyInt (-5)) = true
  <-> outside (-5) 1 feh.
Proof.
  rewrite orb_true_iff, num_gt_1_0, num_lt_int. unfold outside. tauto.
Qed.

Lemma wavelength_check (wl_min wl_max : number) :
  num_gt wl_min wl_max || num_gt wl_max (PyInt 200000)
  || num_lt wl_min (PyInt 2000) = true
  <-> exceeds wl_min wl_max \/ above wl_max 200000 \/ below wl_min 2000.
Proof.
  rewrite !orb_true_iff, num_gt_exceeds, num_gt_int, num_lt_int. tauto.
Qed.

(** [check_bounds] reports the first check that is violated, and accepts
    when none is. *)
Lemma check_bounds_first (c : check) (teff logg feh wl_min wl_max : number) :
  violated c teff logg feh wl_min wl_max ->
  (forall d, In d (before c) -> ~ violated d teff logg feh wl_min wl_max) ->
  check_bounds teff logg feh wl_min wl_max
  = Some (ParameterOutOfBoundsException (message c)).
Proof.
  intros Hc Hbefore. unfold check_bounds.
  destruct (num_gt teff (PyInt 8000) || num_lt teff (PyInt 2500)) eqn:Ht.
  { apply teff_check in Ht. destruct c; try reflexivity;
      exfalso; apply (Hbefore Temperature); simpl; auto. }
  destruct (num_gt logg lit_5_5 || num_lt logg (PyInt (-1))) eqn:Hl.
  { apply logg_check in Hl. destruct c.
    - apply teff_check in Hc. congruence.
    - reflexivity.
    - exfalso; apply (Hbefore Gravity); simpl; auto.
    - exfalso; apply (Hbefore Gravity); simpl; auto. }
  destruct (num_gt feh lit_1_0 || num_lt feh (PyInt (-5))) eqn:Hf.
  { apply feh_check in Hf. destruct c.
    - apply teff_check in Hc. congruence.
    - apply logg_check in Hc. congruence.
    - reflexivity.
    - exfalso; apply (Hbefore Metallicity); simpl; auto. }
  destruct (num_gt wl_min wl_max || num_gt wl_max (PyInt 200000)
            || num_lt wl_min (PyInt 2000)) eqn:Hw.
  { destruct c.
    - apply teff_check in Hc. congruence.
    - apply logg_check in Hc. congruence.
    - apply feh_check in Hc. congruence.
    - reflexivity. }
  destruct c; simpl in Hc.
  - apply teff_check in Hc. congruence.
  - apply logg_check in Hc. congruence.
  - apply feh_check in Hc. congruence.
  - apply wavelength_check in Hc. congruence.
Qed.

Lemma check_bounds_none (teff logg feh wl_min wl_max : number) :
  check_bounds teff logg feh wl_min wl_max = None
  <-> forall c, ~ violated c teff logg feh wl_min wl_max.
Proof.
  split.
  - intros Hn c Hc. unfold check_bounds in Hn.
    destruct (num_gt teff (PyInt 8000) || num_lt teff (PyInt 2500)) eqn:Ht;
      [discriminate|].
    destruct (num_gt logg lit_5_5 || num_lt logg (PyInt (-1))) eqn:Hl;
      [discriminate|].
    destruct (num_gt feh lit_1_0 || num_lt feh (PyInt (-5))) eqn:Hf;
      [discriminate|].
    destruct (num_gt wl_min wl_max || num_gt wl_max (PyInt 200000)
              || num_lt wl_min (PyInt 2000)) eqn:Hw; [discriminate|].
    destruct c; simpl in Hc.
    + apply teff_check in Hc. congruence.
    + apply logg_check in Hc. congruence.
    + apply feh_check in Hc. congruence.
    + apply wavelength_check in Hc. congruence.
  - intros Hall. unfold check_bounds.
    destruct (num_gt teff (PyInt 8000) || num_lt teff (PyInt 2500)) eqn:Ht.
    { apply teff_check in Ht. elim (Hall Temperature Ht). }
    destruct (num_gt logg lit_5_5 || num_lt logg (PyInt (-1))) eqn:Hl.
    { apply logg_check in Hl. elim (Hall Gravity Hl). }
    destruct (num_gt feh lit_1_0 || num_lt feh (PyInt (-5))) eqn:Hf.
    { apply feh_check in Hf. elim (Hall Metallicity Hf). }
    destruct (num_gt wl_min wl_max || num_gt wl_max (PyInt 200000)
              || num_lt wl_min (PyInt 2000)) eqn:Hw.
    { apply wavelength_check in Hw. elim (Hall Wavelengths Hw). }
    reflexivity.
Qed.

Lemma check_bounds_some (teff logg feh wl_min wl_max : number) (e : exn) :
  check_bounds teff logg feh wl_min wl_max = Some e ->
  exists c, e = ParameterOutOfBoundsException (message c)
            /\ violated c teff logg feh wl_min wl_max.
Proof.
  unfold check_bounds.
  destruct (num_gt teff (PyInt 8000) || num_lt teff (PyInt 2500)) eqn:Ht.
  { intros [= <-]. exists Temperature. split; [reflexivity|].
    now apply teff_check. }
  destruct (num_gt logg lit_5_5 || num_lt logg (PyInt (-1))) eqn:Hl.
  { intros [= <-]. exists Gravity. split; [reflexivity|].
    now apply logg_check. }
  destruct (num_gt feh lit_1_0 || num_lt feh (PyInt (-5))) eqn:Hf.
  { intros [= <-]. exists Metallicity. split; [reflexivity|].
    now apply feh_check. }
  destruct (num_gt wl_min wl_max || num_gt wl_max (PyInt 200000)
            || num_lt wl_min (PyInt 2000)) eqn:Hw.
  { intros [= <-]. exists Wavelengths. split; [reflexivity|].
    now apply wavelength_check. }
  discriminate.
Qed.

Lemma within_not_outside (lo hi : Q) (x : number) :
  within lo hi x -> ~ outside lo hi x.
Proof.
  unfold within, outside, below, above.
  destruct (num_value x) as [[| q |]|]; try tauto.
  intros [H1 H2] [H | H]; lra.
Qed.

Lemma valid_not_violated (teff logg feh wl_min wl_max : number) :
  valid_star teff logg feh -> valid_range wl_min wl_max ->
  forall c, ~ violated c teff logg feh wl_min wl_max.
Proof.
  intros (Ht & Hl & Hf) (Ha & Hb & Hab) c.
  destruct c; simpl; try now apply within_not_outside.
  unfold within, ordered, exceeds, above, below in *.
  destruct (num_value wl_min) as [[| x |]|]; try tauto.
  destruct (num_value wl_max) as [[| y |]|]; try tauto.
  simpl. intros [H | [H | H]]; lra.
Qed.

(** ** The monad and the commands *)

Section Monad.

Context {E : IDL}.

Lemma bind_call {B} (cmd : string) (k : unit -> M B) (w : world) :
  bind (call cmd) k w
  = match ex cmd (idl w) with
    | (p, None) => k tt (sent w p cmd)
    | (p, Some msg) => (Raise (IDLError msg), sent w p cmd)
    end.
Proof.
  unfold bind, call, sent.
  destruct (ex cmd (idl w)) as [p [msg|]]; reflexivity.
Qed.

Lemma bind_lift {A B} (o : outcome A) (k : A -> M B) (w : world) :
  bind (lift o) k w
  = match o with
    | Return a => k a w
    | Raise e => (Raise e, w)
    end.
Proof. unfold bind, lift. destruct o; reflexivity. Qed.

Lemma after_nil (w : world) : after w [] = w.
Proof.
  unfold after. simpl. rewrite !app_nil_r. destruct w; reflexivity.
Qed.

Lemma after_cons (w : world) (c : string) (cs : list string) :
  after w (c :: cs) = after (sent w (fst (ex c (idl w))) c) cs.
Proof.
  unfold after, sent. simpl. rewrite <- !app_assoc. reflexivity.
Qed.

(** Whatever the process does, the commands sent are the first [k] of the
    list, all of them when nothing fails, and only the process can fail. *)
Lemma send_all_run (cmds : list string) (w : world) :
  exists k,
    (k <= List.length cmds)%nat
    /\ snd (send_all cmds w) = after w (firstn k cmds)
    /\ (fst (send_all cmds w) = Return tt -> k = List.length cmds)
    /\ (forall e, fst (send_all cmds w) = Raise e ->
                  exists msg, e = IDLError msg).
Proof.
  revert w. induction cmds as [|c cs IH]; intros w.
  - exists 0%nat. simpl. rewrite after_nil.
    repeat split; auto. discriminate.
  - simpl send_all. rewrite bind_call.
    destruct (ex c (idl w)) as [p [msg|]] eqn:Hex.
    + exists 1%nat. simpl fst; simpl snd. simpl firstn.
      rewrite after_cons, Hex, after_nil. simpl.
      repeat split; try lia; try discriminate.
      intros e [= <-]. eauto.
    + destruct (IH (sent w p c)) as (k & Hk & Hw & Hr & He).
      exists (S k). simpl firstn. rewrite after_cons, Hex. simpl fst.
      repeat split; simpl; auto; lia.
Qed.

(** The first command is sent whatever the process does, and the second
    when the process did not fail on the first. *)
Lemma send_all_first (c : string) (cs : list string) (w : world) :
  exists k, snd (send_all (c :: cs) w) = after w (c :: firstn k cs).
Proof.
  change (send_all (c :: cs)) with (call c ;; send_all cs).
  rewrite bind_call.
  destruct (ex c (idl w)) as [p [msg|]] eqn:Hex.
  - exists 0%nat. simpl firstn. rewrite after_cons, Hex, after_nil.
    reflexivity.
  - destruct (send_all_run cs (sent w p c)) as (k & _ & Hw & _).
    exists k. rewrite after_cons, Hex. exact Hw.
Qed.

Lemma send_all_second (c1 c2 : string) (cs : list string) (w : world) :
  snd (ex c1 (idl w)) = None ->
  exists k,
    snd (send_all (c1 :: c2 :: cs) w) = after w (c1 :: c2 :: firstn k cs).
Proof.
  intros Hok.
  change (send_all (c1 :: c2 :: cs)) with (call c1 ;; send_all (c2 :: cs)).
  rewrite bind_call.
  destruct (ex c1 (idl w)) as [p [msg|]] eqn:Hex; [discriminate|].
  destruct (send_all_first c2 cs (sent w p c1)) as [k Hk].
  exists k. rewrite after_cons, Hex. exact Hk.
Qed.

Lemma send_all_reliable (cmds : list string) (w : world) :
  reliable E -> send_all cmds w = (Return tt, after w cmds).
Proof.
  intros [Hex _]. revert w. induction cmds as [|c cs IH]; intros w.
  - simpl. rewrite after_nil. reflexivity.
  - simpl send_all. rewrite bind_call, after_cons.
    specialize (Hex c (idl w)).
    destruct (ex c (idl w)) as [p [msg|]]; simpl in *; [discriminate|].
    apply IH.
Qed.

End Monad.

(** ** The texts of the commands *)

Lemma format_get_spec (teff logg feh wl_min wl_max resolution norm : number) :
  PyFormat.format synthesis_format
    [VNum teff; VNum logg; VNum feh; VNum wl_min; VNum wl_max;
     VNum resolution; VNum norm]
  = and_then (to_int teff) (fun t =>
    and_then (to_float logg) (fun l =>
    and_then (to_float feh) (fun f =>
    and_then (to_int wl_min) (fun a =>
    and_then (to_int wl_max) (fun b =>
    and_then (to_int resolution) (fun r =>
    and_then (to_int norm) (fun n =>
    Return (get_spec_text t l f a b r n)))))))).
Proof.
  unfold PyFormat.format.
  parse_format.
  cbn [PyFormat.render PyFormat.convert].
  destruct (to_int teff); [|reflexivity].
  destruct (to_float logg); [|reflexivity].
  destruct (to_float feh); [|reflexivity].
  destruct (to_int wl_min); [|reflexivity].
  destruct (to_int wl_max); [|reflexivity].
  destruct (to_int resolution); [|reflexivity].
  destruct (to_int norm); reflexivity.
Qed.

Lemma format_waveout (wl_min wl_max step : number) :
  PyFormat.format "waveout = [%i+%f:%i-2*%f:%f]"
    [VNum wl_min; VNum step; VNum wl_max; VNum step; VNum step]
  = and_then (to_int wl_min) (fun a =>
    and_then (to_float step) (fun s =>
    and_then (to_int wl_max) (fun b =>
    Return (waveout_text a b s)))).
Proof.
  unfold PyFormat.format. parse_format.
  cbn [PyFormat.render PyFormat.convert].
  destruct (to_int wl_min); [|reflexivity].
  destruct (to_float step); [|reflexivity].
  destruct (to_int wl_max); reflexivity.
Qed.

(** With [wl_per_pixel=None] the grid command cannot be formatted. *)
Lemma format_waveout_None (wl_min wl_max : number) :
  exists e, PyFormat.format "waveout = [%i+%f:%i-2*%f:%f]"
              [VNum wl_min; VNone; VNum wl_max; VNone; VNone] = Raise e.
Proof.
  unfold PyFormat.format. parse_format.
  cbn [PyFormat.render PyFormat.convert].
  destruct (to_int wl_min); eauto.
Qed.

Lemma format_star_line (star_i : nat) (teff logg feh : number) :
  PyFormat.format "Star %i, [%i, %0.2f, %0.2f]"
    [VNum (PyInt (Z.of_nat star_i)); VNum teff; VNum logg; VNum feh]
  = and_then (to_int teff) (fun t =>
    and_then (to_float logg) (fun l =>
    and_then (to_float feh) (fun f =>
    Return (star_line (Z.of_nat star_i) t l f)))).
Proof.
  unfold PyFormat.format. parse_format.
  cbn [PyFormat.render PyFormat.convert to_int].
  destruct (to_int teff); [|reflexivity].
  destruct (to_float logg); [|reflexivity].
  destruct (to_float feh); reflexivity.
Qed.

(** Formatting raises built-in exceptions only. *)
Lemma convert_not_bounds (k : PyFormat.conv) (v : pyval) :
  is_out_of_bounds (PyFormat.convert k v) = false.
Proof.
  destruct v as [[z | [s | s | | s m e]] |], k; reflexivity || simpl.
  all: try (unfold Z2SF; destruct (binary_normalize prec emax z 0 false);
            reflexivity).
Qed.

Lemma render_not_bounds (ps : list PyFormat.piece) (args : list pyval) :
  is_out_of_bounds (PyFormat.render ps args) = false.
Proof.
  revert args. induction ps as [|[c | k] ps IH]; intros args; simpl.
  - destruct args; reflexivity.
  - specialize (IH args). destruct (PyFormat.render ps args); auto.
  - destruct args as [|a args]; [reflexivity|].
    pose proof (convert_not_bounds k a) as Hc.
    destruct (PyFormat.convert k a); [|exact Hc].
    specialize (IH args). destruct (PyFormat.render ps args); auto.
Qed.

Lemma format_not_bounds (fmt : string) (args : list pyval) :
  is_out_of_bounds (PyFormat.format fmt args) = false.
Proof.
  unfold PyFormat.format.
  destruct (PyFormat.parse PyFormat.Text fmt);
    [apply render_not_bounds | reflexivity].
Qed.

(** ** [get_idl_spectrum] *)

Section GetIdlSpectrum.

Context {E : IDL}.

Variables (teff logg feh wl_min wl_max resolution norm : number).
Variables (do_resample : bool) (wl_per_pixel : pyval).

Let synthesis : outcome string :=
  PyFormat.format synthesis_format
    [VNum teff; VNum logg; VNum feh; VNum wl_min; VNum wl_max;
     VNum resolution; VNum norm].

Let waveout : outcome string :=
  PyFormat.format "waveout = [%i+%f:%i-2*%f:%f]"
    [VNum wl_min; wl_per_pixel; VNum wl_max; wl_per_pixel; wl_per_pixel].

(** A rejected request raises and leaves the state as it was. *)
Lemma get_idl_spectrum_rejected (e : exn) (w : world) :
  check_bounds teff logg feh wl_min wl_max = Some e ->
  get_idl_spectrum teff logg feh wl_min wl_max resolution norm do_resample
    wl_per_pixel w = (Raise e, w).
Proof. intros H. unfold get_idl_spectrum. rewrite H. reflexivity. Qed.

(** An accepted request plays its script. *)
Lemma get_idl_spectrum_accepted (w : world) :
  check_bounds teff logg feh wl_min wl_max = None ->
  get_idl_spectrum teff logg feh wl_min wl_max resolution norm do_resample
    wl_per_pixel w
  = play (script synthesis waveout do_resample) w.
Proof.
  intros H. unfold get_idl_spectrum. rewrite H.
  fold synthesis_format. fold synthesis. fold waveout.
  unfold play, script, read_back, CFe_text, resamp_text, assign_text.
  destruct synthesis as [cmd | e]; [destruct do_resample;
    [destruct waveout as [grid | e]|]|];
    unfold bind, call, lift, ret, raise; cbn [fst snd send_all];
    unfold bind, call, lift, ret, raise; simpl;
    repeat match goal with
           | |- context [ex ?c ?p] =>
               destruct (ex c p) as [? [?|]]; simpl; try reflexivity
           end.
Qed.

End GetIdlSpectrum.

Section Play.

Context {E : IDL}.

Lemma read_back_run (w : world) :
  snd (read_back w) = w
  /\ (forall a b, fst (read_back w) = Return (a, b) ->
                  ev "wave" (idl w) = Done a
                  /\ ev "spectrum" (idl w) = Done b)
  /\ (forall e, fst (read_back w) = Raise e -> exists msg, e = IDLError msg).
Proof.
  unfold read_back, bind, getattr, ret.
  destruct (ev "wave" (idl w)) as [a|m]; simpl;
    [destruct (ev "spectrum" (idl w)) as [b|m]; simpl|];
    (split; [reflexivity|split]).
  - intros a' b' [= <- <-]. auto.
  - discriminate.
  - discriminate.
  - intros e [= <-]. eauto.
  - discriminate.
  - intros e [= <-]. eauto.
Qed.

(** Once the commands are sent, the state does not change. *)
Lemma play_state (s : list string * option exn) (w : world) :
  snd (play s w) = snd (send_all (fst s) w).
Proof.
  destruct s as [cmds oe]. unfold play, bind. cbn [fst snd].
  destruct (send_all cmds w) as [[[]|e] w1]; [|reflexivity].
  destruct oe as [e|]; [reflexivity|]. apply read_back_run.
Qed.

(** What a played script leaves: the commands sent are the first [k] of
    the script; a normal return has sent them all and reads the arrays
    from the process they left; an exception is the process's or the
    script's own. *)
Lemma play_run (s : list string * option exn) (w : world) :
  exists k,
    (k <= List.length (fst s))%nat
    /\ snd (play s w) = after w (firstn k (fst s))
    /\ (forall a b, fst (play s w) = Return (a, b) ->
          snd s = None /\ k = List.length (fst s)
          /\ ev "wave" (idl (after w (fst s))) = Done a
          /\ ev "spectrum" (idl (after w (fst s))) = Done b)
    /\ (forall e, fst (play s w) = Raise e ->
          (exists msg, e = IDLError msg) \/ snd s = Some e).
Proof.
  destruct s as [cmds oe]. unfold play. cbn [fst snd].
  destruct (send_all_run cmds w) as (k & Hk & Hw & Hr & He).
  exists k. unfold bind.
  destruct (send_all cmds w) as [[[]|e] w1]; cbn [fst snd] in *.
  - specialize (Hr eq_refl). subst k w1. rewrite firstn_all.
    destruct oe as [e|].
    + unfold raise. cbn [fst snd].
      split; [exact Hk|]. split; [reflexivity|]. split.
      * discriminate.
      * intros e' [= <-]. auto.
    + destruct (read_back_run (after w cmds)) as (H1 & H2 & H3).
      split; [exact Hk|]. split; [exact H1|]. split.
      * intros a b Hab. destruct (H2 a b Hab). auto.
      * intros e' He'. left. apply (H3 e' He').
  - split; [exact Hk|]. split; [exact Hw|]. split.
    + discriminate.
    + intros e' [= <-]. left. apply He. reflexivity.
Qed.

Lemma play_reliable (cmds : list string) (w : world) :
  reliable E ->
  exists a b,
    play (cmds, None) w = (Return (a, b), after w cmds)
    /\ ev "wave" (idl (after w cmds)) = Done a
    /\ ev "spectrum" (idl (after w cmds)) = Done b.
Proof.
  intros Hrel. unfold play. cbn [fst snd]. unfold bind.
  rewrite (send_all_reliable cmds w Hrel).
  destruct Hrel as [_ Hev].
  destruct (Hev "wave" (idl (after w cmds))) as [a Ha].
  destruct (Hev "spectrum" (idl (after w cmds))) as [b Hb].
  exists a, b. unfold read_back, bind, getattr, ret.
  rewrite Ha, Hb. auto.
Qed.

End Play.

(** ** Claims on [get_idl_spectrum] *)

Section GetIdlSpectrumClaims.

Context {E : IDL}.

Variables (teff logg feh wl_min wl_max resolution norm : number).
Variables (do_resample : bool) (wl_per_pixel : pyval).

(** C1.  A request with [teff] outside [2500, 8000], or [logg] outside
    [-1, 5.5], or [feh] outside [-5, 1], or [wl_min > wl_max], or
    [wl_max > 200000], or [wl_min < 2000] raises
    [ParameterOutOfBoundsException] and leaves the state, hence the list
    of the commands sent to IDL, as it was: no call is made. *)
Theorem out_of_bounds_raises_before_any_call (w : world) :
  outside 2500 8000 teff \/ outside (-1) 5.5 logg \/ outside (-5) 1 feh
  \/ exceeds wl_min wl_max \/ above wl_max 200000 \/ below wl_min 2000 ->
  exists msg,
    get_idl_spectrum teff logg feh wl_min wl_max resolution norm
      do_resample wl_per_pixel w
    = (Raise (ParameterOutOfBoundsException msg), w).
Proof.
  intros H.
  destruct (check_bounds teff logg feh wl_min wl_max) as [e|] eqn:Hcb.
  - destruct (check_bounds_some _ _ _ _ _ _ Hcb) as (c & -> & _).
    exists (message c). now apply get_idl_spectrum_rejected.
  - exfalso. rewrite check_bounds_none in Hcb.
    destruct H as [H | [H | [H | H]]].
    + apply (Hcb Temperature H).
    + apply (Hcb Gravity H).
    + apply (Hcb Metallicity H).
    + apply (Hcb Wavelengths H).
Qed.

(** C2.  The checks are made in the order temperature, gravity,
    metallicity, wavelengths, and the first one violated is the one
    reported: when check [c] is violated and none before it is, the
    request raises [ParameterOutOfBoundsException] with the message of
    [c], which names the quantity, whatever the later checks would
    say.  For the temperature nothing comes before, so that
    [teff = 9000] is reported with the message that mentions
    "Temperature". *)
Theorem first_violated_check_is_reported (c : check) (w : world) :
  violated c teff logg feh wl_min wl_max ->
  (forall d, In d (before c) -> ~ violated d teff logg feh wl_min wl_max) ->
  get_idl_spectrum teff logg feh wl_min wl_max resolution norm
    do_resample wl_per_pixel w
  = (Raise (ParameterOutOfBoundsException (message c)), w)
  /\ mentions (keyword c) (message c) = true.
Proof.
  intros Hc Hbefore. split.
  - apply get_idl_spectrum_rejected. now apply check_bounds_first.
  - destruct c; reflexivity.
Qed.

(** C3, as amended.  An inverted wavelength range, with a star in the
    domain, raises [ParameterOutOfBoundsException] before any call, with
    the message of the wavelength check; the message mentions
    "Wavelengths" and is the same when it is a wavelength limit that is
    passed, so that it does not say which of the three conditions
    failed. *)
Theorem inverted_range_reports_wavelengths (w : world) :
  valid_star teff logg feh ->
  exceeds wl_min wl_max ->
  get_idl_spectrum teff logg feh wl_min wl_max resolution norm
    do_resample wl_per_pixel w
  = (Raise (ParameterOutOfBoundsException (message Wavelengths)), w)
  /\ mentions "Wavelengths" (message Wavelengths) = true
  /\ forall wl_min' wl_max',
       above wl_max' 200000 \/ below wl_min' 2000 ->
       get_idl_spectrum teff logg feh wl_min' wl_max' resolution norm
         do_resample wl_per_pixel w
       = (Raise (ParameterOutOfBoundsException (message Wavelengths)), w).
Proof.
  intros (Ht & Hl & Hf) Hinv.
  assert (Hbefore : forall a b d, In d (before Wavelengths) ->
                                  ~ violated d teff logg feh a b).
  { intros a b d [<- | [<- | [<- | []]]]; simpl;
      now apply within_not_outside. }
  split; [|split].
  - apply get_idl_spectrum_rejected.
    apply check_bounds_first; simpl; auto.
  - reflexivity.
  - intros a b Hab. apply get_idl_spectrum_rejected.
    apply check_bounds_first; simpl; auto.
Qed.

Let synthesis : outcome string :=
  PyFormat.format synthesis_format
    [VNum teff; VNum logg; VNum feh; VNum wl_min; VNum wl_max;
     VNum resolution; VNum norm].

Let waveout : outcome string :=
  PyFormat.format "waveout = [%i+%f:%i-2*%f:%f]"
    [VNum wl_min; wl_per_pixel; VNum wl_max; wl_per_pixel; wl_per_pixel].

Lemma script_exception (e : exn) :
  snd (script synthesis waveout do_resample) = Some e ->
  is_out_of_bounds (@Raise unit e) = false.
Proof.
  unfold script.
  pose proof (format_not_bounds synthesis_format
                [VNum teff; VNum logg; VNum feh; VNum wl_min; VNum wl_max;
                 VNum resolution; VNum norm]) as Hs.
  pose proof (format_not_bounds "waveout = [%i+%f:%i-2*%f:%f]"
                [VNum wl_min; wl_per_pixel; VNum wl_max; wl_per_pixel;
                 wl_per_pixel]) as Hw.
  fold synthesis in Hs. fold waveout in Hw.
  destruct synthesis as [cmd|e1].
  - destruct do_resample; [|discriminate].
    destruct waveout as [grid|e2]; [discriminate|].
    intros [= <-]. exact Hw.
  - intros [= <-]. exact Hs.
Qed.

(** C9.  The bounds are closed: a star with [2500 <= teff <= 8000],
    [-1 <= logg <= 5.5] and [-5 <= feh <= 1] and a range with
    [2000 <= wl_min <= wl_max <= 200000] do not raise
    [ParameterOutOfBoundsException], the end points and an
    equal-endpoint range included. *)
Theorem closed_bounds_are_accepted (w : world) :
  valid_star teff logg feh ->
  valid_range wl_min wl_max ->
  is_out_of_bounds
    (fst (get_idl_spectrum teff logg feh wl_min wl_max resolution norm
            do_resample wl_per_pixel w)) = false.
Proof.
  intros Hs Hr.
  assert (Hcb : check_bounds teff logg feh wl_min wl_max = None).
  { apply check_bounds_none. now apply valid_not_violated. }
  rewrite (get_idl_spectrum_accepted _ _ _ _ _ _ _ _ _ _ Hcb).
  fold synthesis. fold waveout.
  destruct (play_run (script synthesis waveout do_resample) w)
    as (k & _ & _ & _ & He).
  destruct (fst (play (script synthesis waveout do_resample) w))
    as [[a b]|e]; [reflexivity|].
  destruct (He e eq_refl) as [[msg ->] | Hscript]; [reflexivity|].
  apply (script_exception e Hscript).
Qed.

End GetIdlSpectrumClaims.

(** A temperature of 9000 K, as an [int] or as a [float], is reported as
    such whatever the other parameters are. *)
Lemma teff_9000_reports_temperature {E : IDL}
    (teff logg feh wl_min wl_max resolution norm : number)
    (do_resample : bool) (wl_per_pixel : pyval) (q : Q) (w : world) :
  num_value teff = Some (Fin q) -> (q == 9000)%Q ->
  get_idl_spectrum teff logg feh wl_min wl_max resolution norm do_resample
    wl_per_pixel w
  = (Raise (ParameterOutOfBoundsException (message Temperature)), w)
  /\ mentions "Temperature" (message Temperature) = true.
Proof.
  intros Hv Hq. split; [|reflexivity].
  apply get_idl_spectrum_rejected.
  apply (check_bounds_first Temperature); [|intros d []].
  right. unfold above. rewrite Hv. lra.
Qed.

Lemma firstn_incl {A} (n : nat) (l : list A) (x : A) :
  In x (firstn n l) -> In x l.
Proof.
  revert l. induction n as [|n IH]; intros [|y l]; simpl; try tauto.
  intros [H | H]; auto.
Qed.

Lemma waveout_is_not_synthesis (wl_min wl_max : number) (wl_per_pixel : pyval)
    (grid : string) :
  PyFormat.format "waveout = [%i+%f:%i-2*%f:%f]"
    [VNum wl_min; wl_per_pixel; VNum wl_max; wl_per_pixel; wl_per_pixel]
  = Return grid ->
  String.prefix "spectrum = get_spec(" grid = false.
Proof.
  destruct wl_per_pixel as [step|].
  - rewrite format_waveout.
    destruct (to_int wl_min); [|discriminate].
    destruct (to_float step); [|discriminate].
    destruct (to_int wl_max); [|discriminate].
    intros [= <-]. reflexivity.
  - destruct (format_waveout_None wl_min wl_max) as [e ->]. discriminate.
Qed.

Section SynthesisCommand.

Context {E : IDL}.

Variables (teff logg feh wl_min wl_max resolution norm : number).
Variables (do_resample : bool) (wl_per_pixel : pyval).

Lemma calls_after (w : world) (cmds : list string) :
  calls (after w cmds) = (calls w ++ cmds)%list.
Proof. reflexivity. Qed.

(** Whatever the request and the process, the commands a call sends are
    none, or ["CFe = 0. ;"] alone, or ["CFe = 0. ;"] followed at once by
    the one synthesis command. *)
Lemma commands_of_a_call (w : world) :
  let w' := snd (get_idl_spectrum teff logg feh wl_min wl_max resolution
                   norm do_resample wl_per_pixel w) in
  calls w' = calls w
  \/ calls w' = (calls w ++ [CFe_text])%list
  \/ exists t l f a b r n rest,
       to_int teff = Return t /\ to_float logg = Return l
       /\ to_float feh = Return f /\ to_int wl_min = Return a
       /\ to_int wl_max = Return b /\ to_int resolution = Return r
       /\ to_int norm = Return n
       /\ calls w'
          = (calls w ++ CFe_text :: get_spec_text t l f a b r n :: rest)%list
       /\ forall c, In c rest ->
                    String.prefix "spectrum = get_spec(" c = false.
Proof.
  intros w'. subst w'.
  destruct (check_bounds teff logg feh wl_min wl_max) as [e|] eqn:Hcb.
  { left. now rewrite (get_idl_spectrum_rejected _ _ _ _ _ _ _ _ _ e w). }
  rewrite (get_idl_spectrum_accepted _ _ _ _ _ _ _ _ _ _ Hcb).
  match goal with
  | |- context [play ?s w] =>
      destruct (play_run s w) as (k & Hk & -> & _ & _); revert k Hk
  end.
  rewrite format_get_spec.
  destruct (to_int teff) as [t|]; cbn [and_then];
    [|short_script].
  destruct (to_float logg) as [l|]; cbn [and_then];
    [|short_script].
  destruct (to_float feh) as [f|]; cbn [and_then];
    [|short_script].
  destruct (to_int wl_min) as [a|]; cbn [and_then];
    [|short_script].
  destruct (to_int wl_max) as [b|]; cbn [and_then];
    [|short_script].
  destruct (to_int resolution) as [r|]; cbn [and_then];
    [|short_script].
  destruct (to_int norm) as [n|]; cbn [and_then];
    [|short_script].
  intros [|[|k]] Hk; rewrite calls_after.
  - left. simpl. now rewrite app_nil_r.
  - right. left. unfold script. destruct do_resample;
      [destruct (PyFormat.format _ _)|]; reflexivity.
  - right. right.
    exists t, l, f, a, b, r, n.
    unfold script in *.
    destruct do_resample.
    + destruct (PyFormat.format "waveout = [%i+%f:%i-2*%f:%f]" _)
        as [grid|e] eqn:Hgrid; cbn [fst] in *.
      * exists (firstn k [grid; resamp_text; assign_text]).
        repeat split; auto.
        intros c Hc. apply firstn_incl in Hc.
        destruct Hc as [<- | [<- | [<- | []]]]; try reflexivity.
        apply (waveout_is_not_synthesis _ _ _ _ Hgrid).
      * exists []. repeat split; auto.
        -- simpl. now destruct k.
        -- intros c [].
    + exists []. cbn [fst]. repeat split; auto.
      * simpl. now destruct k.
      * intros c [].
Qed.

(** A request that passes the checks sets [CFe] first, whatever the
    process does. *)
Lemma accepted_request_sets_CFe (w : world) :
  (forall c, ~ violated c teff logg feh wl_min wl_max) ->
  exists rest,
    calls (snd (get_idl_spectrum teff logg feh wl_min wl_max resolution
                  norm do_resample wl_per_pixel w))
    = (calls w ++ CFe_text :: rest)%list.
Proof.
  intros Hacc. apply check_bounds_none in Hacc.
  rewrite (get_idl_spectrum_accepted _ _ _ _ _ _ _ _ _ _ Hacc), play_state.
  match goal with
  | |- context [script ?s ?g do_resample] =>
      assert (Hs : exists cs, fst (script s g do_resample) = CFe_text :: cs)
  end.
  { unfold script. destruct (PyFormat.format synthesis_format _);
      [destruct do_resample; [destruct (PyFormat.format _ _)|]|];
      cbn [fst]; eexists; reflexivity. }
  destruct Hs as [cs ->].
  destruct (send_all_first CFe_text cs w) as [k ->].
  exists (firstn k cs). reflexivity.
Qed.

(** When the process took ["CFe = 0. ;"] and the seven numbers convert,
    the synthesis command follows at once, and no later command of the
    call is a synthesis command. *)
Lemma accepted_request_synthesises (w : world) (t : Z) (l f : spec_float)
    (a b r n : Z) :
  (forall c, ~ violated c teff logg feh wl_min wl_max) ->
  snd (ex CFe_text (idl w)) = None ->
  to_int teff = Return t -> to_float logg = Return l ->
  to_float feh = Return f -> to_int wl_min = Return a ->
  to_int wl_max = Return b -> to_int resolution = Return r ->
  to_int norm = Return n ->
  exists rest,
    calls (snd (get_idl_spectrum teff logg feh wl_min wl_max resolution
                  norm do_resample wl_per_pixel w))
    = (calls w ++ CFe_text :: get_spec_text t l f a b r n :: rest)%list
    /\ forall c, In c rest ->
                 String.prefix "spectrum = get_spec(" c = false.
Proof.
  intros Hacc Hok Ht Hl Hf Ha Hb Hr Hn. apply check_bounds_none in Hacc.
  rewrite (get_idl_spectrum_accepted _ _ _ _ _ _ _ _ _ _ Hacc), play_state.
  rewrite format_get_spec, Ht, Hl, Hf, Ha, Hb, Hr, Hn. cbn [and_then].
  match goal with
  | |- context [script ?s ?g do_resample] =>
      assert (Hs : exists cs,
                 fst (script s g do_resample)
                 = CFe_text :: get_spec_text t l f a b r n :: cs
                 /\ forall c, In c cs ->
                              String.prefix "spectrum = get_spec(" c = false)
  end.
  { unfold script. destruct do_resample.
    - destruct (PyFormat.format "waveout = [%i+%f:%i-2*%f:%f]" _)
        as [grid|e] eqn:Hgrid; cbn [fst].
      + eexists. split; [reflexivity|].
        intros c [<- | [<- | [<- | []]]]; try reflexivity.
        apply (waveout_is_not_synthesis _ _ _ _ Hgrid).
      + exists []. split; [reflexivity | intros c []].
    - exists []. split; [reflexivity | intros c []]. }
  destruct Hs as (cs & -> & Hcs).
  destruct (send_all_second CFe_text (get_spec_text t l f a b r n) cs w Hok)
    as [k ->].
  exists (firstn k cs). split; [reflexivity|].
  intros c Hc. apply Hcs. apply (firstn_incl _ _ _ Hc).
Qed.

(** C5.  In the synthesis command [get_idl_spectrum] issues, [teff],
    [wl_min], [wl_max], [resolution] (and [norm]) stand as the decimal
    digits of their integer values and [logg] and [feh] as floats in fixed
    notation, and [CFe] is set to 0 just before it.
    - Whatever the request and the process, the commands a call sends are
      none, or ["CFe = 0. ;"] alone, or ["CFe = 0. ;"] followed at once by
      the one synthesis command, with this text; no later command of the
      call is a synthesis command.
    - A request that is rejected sends nothing; a request that passes the
      checks does send ["CFe = 0. ;"], first.
    - When the process took ["CFe = 0. ;"] and the seven numbers convert,
      the synthesis command is sent, next.
    [CFe] is not among the arguments of the function. *)
Theorem synthesis_command_text (w : world) :
  let w' := snd (get_idl_spectrum teff logg feh wl_min wl_max resolution
                   norm do_resample wl_per_pixel w) in
  (calls w' = calls w
   \/ calls w' = (calls w ++ [CFe_text])%list
   \/ exists t l f a b r n rest,
        to_int teff = Return t /\ to_float logg = Return l
        /\ to_float feh = Return f /\ to_int wl_min = Return a
        /\ to_int wl_max = Return b /\ to_int resolution = Return r
        /\ to_int norm = Return n
        /\ calls w'
           = (calls w ++ CFe_text :: get_spec_text t l f a b r n :: rest)%list
        /\ forall c, In c rest ->
                     String.prefix "spectrum = get_spec(" c = false)
  /\ ((exists c, violated c teff logg feh wl_min wl_max) ->
      calls w' = calls w)
  /\ ((forall c, ~ violated c teff logg feh wl_min wl_max) ->
      exists rest, calls w' = (calls w ++ CFe_text :: rest)%list)
  /\ (forall t l f a b r n,
        (forall c, ~ violated c teff logg feh wl_min wl_max) ->
        snd (ex CFe_text (idl w)) = None ->
        to_int teff = Return t -> to_float logg = Return l ->
        to_float feh = Return f -> to_int wl_min = Return a ->
        to_int wl_max = Return b -> to_int resolution = Return r ->
        to_int norm = Return n ->
        exists rest,
          calls w'
          = (calls w ++ CFe_text :: get_spec_text t l f a b r n :: rest)%list
          /\ forall c, In c rest ->
                       String.prefix "spectrum = get_spec(" c = false).
Proof.
  intros w'. subst w'. split; [apply commands_of_a_call|].
  split; [|split].
  - intros [c Hc].
    destruct (check_bounds teff logg feh wl_min wl_max) as [e|] eqn:Hcb.
    + now rewrite (get_idl_spectrum_rejected _ _ _ _ _ _ _ _ _ e w).
    + elim (proj1 (check_bounds_none _ _ _ _ _) Hcb c Hc).
  - apply accepted_request_sets_CFe.
  - intros t l f a b r n. apply accepted_request_synthesises.
Qed.

End SynthesisCommand.

(** ** Batches *)

Section Served.

Context {E : IDL} {A : Type}.

Variable rq : A -> M (ndarray * ndarray).

Variable body : A -> batch -> M batch.
Hypothesis body_collects : collects rq body.

Lemma for_each_served (items : list A) :
  forall b w rs w',
    served rq w items rs w' ->
    for_each body items b w
    = (Return (last_wave (fst b) rs, (snd b ++ map snd rs)%list), w').
Proof.
  induction items as [|item items IH]; intros b w rs w' Hs;
    inversion Hs; subst; simpl.
  - unfold ret. rewrite app_nil_r. destruct b; reflexivity.
  - unfold bind. rewrite body_collects.
    match goal with H : rq item w = _ |- _ => rewrite H end.
    erewrite IH by eassumption. simpl. rewrite <- app_assoc. reflexivity.
Qed.

Lemma for_each_returns (items : list A) :
  forall b w b' w',
    for_each body items b w = (Return b', w') ->
    exists rs,
      served rq w items rs w'
      /\ b' = (last_wave (fst b) rs, (snd b ++ map snd rs)%list).
Proof.
  induction items as [|item items IH]; intros b w b' w'; simpl.
  - unfold ret. intros [= <- <-]. exists []. split; [constructor|].
    simpl. rewrite app_nil_r. destruct b; reflexivity.
  - unfold bind. rewrite body_collects.
    destruct (rq item w) as [[r|e] w1] eqn:Hr; [|discriminate].
    intros H. apply IH in H. destruct H as (rs & Hs & ->).
    exists (r :: rs). split; [econstructor; eassumption|].
    simpl. rewrite <- app_assoc. reflexivity.
Qed.

(** The loop stops at the first request that raises, with its exception
    and the state it left. *)
Lemma for_each_raises (before_it : list A) (item : A) (rest : list A) :
  forall b w rs w1 e w2,
    served rq w before_it rs w1 ->
    rq item w1 = (Raise e, w2) ->
    for_each body (before_it ++ item :: rest) b w = (Raise e, w2).
Proof.
  induction before_it as [|x xs IH]; intros b w rs w1 e w2 Hs Hr;
    inversion Hs; subst; simpl.
  - unfold bind. rewrite body_collects, Hr. reflexivity.
  - unfold bind. rewrite body_collects.
    match goal with H : rq x w = _ |- _ => rewrite H end.
    eapply IH; eassumption.
Qed.

Lemma served_length (items : list A) :
  forall w rs w', served rq w items rs w' ->
                  List.length rs = List.length items.
Proof.
  induction items as [|item items IH]; intros w rs w' Hs;
    inversion Hs; subst; simpl; eauto.
Qed.

(** The last request of a batch that was served. *)
Lemma served_last (items : list A) :
  forall w rs w' start,
    served rq w items rs w' -> items <> [] ->
    exists item w1 r,
      rq item w1 = (Return r, w') /\ last_wave start rs = Some (fst r).
Proof.
  induction items as [|item items IH]; intros w rs w' start Hs Hne;
    [congruence|].
  inversion Hs as [|w0 item0 r w1 items0 rs0 w2 Hr Hrest]; subst.
  destruct items as [|item' items].
  - inversion Hrest; subst. exists item, w, r. auto.
  - assert (Hne' : item' :: items <> []) by discriminate.
    destruct (IH w1 rs0 w' (Some (fst r)) Hrest Hne')
      as (it & w3 & r3 & H1 & H2).
    exists it, w3, r3. split; [assumption|]. simpl. exact H2.
Qed.

(** The request at index [i] of a batch that was served: it was made from
    the state the first [i] requests left, and its result is at index [i]
    of the results. *)
Lemma served_nth (items : list A) :
  forall w rs w' i item,
    served rq w items rs w' ->
    nth_error items i = Some item ->
    exists wi wi' r,
      served rq w (firstn i items) (firstn i rs) wi
      /\ rq item wi = (Return r, wi')
      /\ nth_error rs i = Some r.
Proof.
  induction items as [|x items IH]; intros w rs w' i item Hs Hnth.
  - destruct i; discriminate.
  - inversion Hs as [|w0 x0 r w1 items0 rs0 w2 Hr Hrest]; subst.
    destruct i as [|i]; simpl in Hnth.
    + injection Hnth as ->. exists w, w1, r. simpl.
      split; [constructor|]. auto.
    + destruct (IH w1 rs0 w' i item Hrest Hnth) as (wi & wi' & ri & H1 & H2 & H3).
      exists wi, wi', ri. simpl. split; [econstructor; eassumption|]. auto.
Qed.

(** When every request returns wherever it is made, the batch is
    served. *)
Lemma served_total (items : list A) :
  (forall item, In item items ->
     forall w, exists r w1, rq item w = (Return r, w1)) ->
  forall w, exists rs w', served rq w items rs w'.
Proof.
  induction items as [|item items IH]; intros Hall w.
  - exists [], w. constructor.
  - destruct (Hall item (or_introl eq_refl) w) as (r & w1 & Hr).
    destruct (IH (fun it Hit => Hall it (or_intror Hit)) w1)
      as (rs & w' & Hs).
    exists (r :: rs), w'. econstructor; eassumption.
Qed.

End Served.

(** ** Conversions of numbers in the domain *)

Lemma within_int_like (lo hi : Q) (x : number) : within lo hi x -> int_like x.
Proof.
  unfold within, int_like.
  destruct x as [z | [s | s | | s m e]]; simpl; try tauto; eauto.
  destruct s; tauto.
Qed.

Lemma small_int_float_like (z : Z) : -5 <= z <= 5 -> float_like (PyInt z).
Proof.
  intros H. unfold float_like.
  assert (Hz : z = -5 \/ z = -4 \/ z = -3 \/ z = -2 \/ z = -1 \/ z = 0
               \/ z = 1 \/ z = 2 \/ z = 3 \/ z = 4 \/ z = 5) by lia.
  repeat (destruct Hz as [-> | Hz]; [vm_compute; eauto|]).
  subst. vm_compute. eauto.
Qed.

Lemma within_float_like (lo hi : Q) (x : number) :
  (-5 <= lo)%Q -> (hi <= 11 # 2)%Q -> within lo hi x -> float_like x.
Proof.
  intros Hlo Hhi. unfold within.
  destruct x as [z | f]; [|intros _; exists f; reflexivity].
  simpl. intros [H1 H2]. apply small_int_float_like.
  assert (H3 : (-5 <= inject_Z z)%Q) by lra.
  assert (H4 : (inject_Z z <= 11 # 2)%Q) by lra.
  unfold Qle in H3, H4. simpl in H3, H4. lia.
Qed.

(** ** Requests that return *)

Section Returns.

Context {E : IDL}.

Variables (teff logg feh wl_min wl_max resolution norm : number).
Variable wl_per_pixel : pyval.

Let synthesis : outcome string :=
  PyFormat.format synthesis_format
    [VNum teff; VNum logg; VNum feh; VNum wl_min; VNum wl_max;
     VNum resolution; VNum norm].

Let waveout : outcome string :=
  PyFormat.format "waveout = [%i+%f:%i-2*%f:%f]"
    [VNum wl_min; wl_per_pixel; VNum wl_max; wl_per_pixel; wl_per_pixel].

(** A resampled request that returns has sent its five commands, the
    three of the resampling last, and returns the arrays the process
    then holds. *)
Lemma get_idl_spectrum_resampled (w w' : world) (a b : ndarray) :
  get_idl_spectrum teff logg feh wl_min wl_max resolution norm true
    wl_per_pixel w = (Return (a, b), w') ->
  exists cmd grid,
    synthesis = Return cmd /\ waveout = Return grid
    /\ w' = after w [CFe_text; cmd; grid; resamp_text; assign_text]
    /\ ev "wave" (idl w') = Done a
    /\ ev "spectrum" (idl w') = Done b.
Proof.
  destruct (check_bounds teff logg feh wl_min wl_max) as [e|] eqn:Hcb.
  { rewrite (get_idl_spectrum_rejected _ _ _ _ _ _ _ _ _ e w Hcb).
    discriminate. }
  rewrite (get_idl_spectrum_accepted _ _ _ _ _ _ _ _ _ _ Hcb).
  fold synthesis. fold waveout. intros Hp.
  destruct (play_run (script synthesis waveout true) w)
    as (k & _ & Hw & Hret & _).
  rewrite Hp in Hw, Hret. cbn [fst snd] in Hw, Hret.
  destruct (Hret a b eq_refl) as (Hnone & -> & Ha & Hb).
  rewrite firstn_all in Hw. subst w'.
  unfold script in *.
  destruct synthesis as [cmd|e]; [|discriminate].
  destruct waveout as [grid|e]; [|discriminate].
  exists cmd, grid. cbn [fst] in *. auto.
Qed.

(** With a process that does not fail, a request in the domain whose
    settings can be formatted returns. *)
Lemma get_idl_spectrum_returns (step : number) (w : world) :
  reliable E ->
  valid_star teff logg feh -> valid_range wl_min wl_max ->
  int_like resolution -> int_like norm ->
  wl_per_pixel = VNum step -> float_like step ->
  exists r w',
    get_idl_spectrum teff logg feh wl_min wl_max resolution norm true
      wl_per_pixel w = (Return r, w').
Proof.
  intros Hrel Hstar Hrange [r Hr] [n Hn] -> [s Hs].
  assert (Hcb : check_bounds teff logg feh wl_min wl_max = None).
  { apply check_bounds_none. now apply valid_not_violated. }
  rewrite (get_idl_spectrum_accepted _ _ _ _ _ _ _ _ _ _ Hcb).
  destruct Hstar as (Ht & Hl & Hf). destruct Hrange as (Ha & Hb & _).
  destruct (within_int_like _ _ _ Ht) as [t Ht'].
  destruct (within_float_like (-1) 5.5 logg) as [l Hl']; try lra; auto.
  destruct (within_float_like (-5) 1 feh) as [f Hf']; try lra; auto.
  destruct (within_int_like _ _ _ Ha) as [a Ha'].
  destruct (within_int_like _ _ _ Hb) as [b Hb'].
  rewrite format_get_spec, format_waveout.
  rewrite Ht', Hl', Hf', Ha', Hb', Hr, Hn, Hs. cbn [and_then script].
  destruct (play_reliable
              [CFe_text; get_spec_text t l f a b r n; waveout_text a b s;
               resamp_text; assign_text] w Hrel) as (x & y & Hp & _).
  eauto.
Qed.


(** X8.  The process sees the step through its six decimals only: two
    steps with the same text give the same request. *)
Lemma step_is_sent_as_text (s1 s2 : spec_float) (w : world) :
  PyFormat.fixed 6 s1 = PyFormat.fixed 6 s2 ->
  get_idl_spectrum teff logg feh wl_min wl_max resolution norm true
    (VNum (PyFloat s1)) w
  = get_idl_spectrum teff logg feh wl_min wl_max resolution norm true
      (VNum (PyFloat s2)) w.
Proof.
  intros Htext.
  destruct (check_bounds teff logg feh wl_min wl_max) as [e|] eqn:Hcb.
  - now rewrite !(get_idl_spectrum_rejected _ _ _ _ _ _ _ _ _ e w Hcb).
  - rewrite !(get_idl_spectrum_accepted _ _ _ _ _ _ _ _ _ _ Hcb).
    rewrite !format_waveout. unfold waveout_text. simpl to_float.
    cbn [and_then]. rewrite Htext. reflexivity.
Qed.

End Returns.

(** A step of 1/128 is sent as [0.007812], the text of the step 0.007812
    itself. *)
Lemma step_text_example :
  PyFormat.fixed 6 (float_lit 1 128) = "0.007812"
  /\ PyFormat.fixed 6 (float_lit 7812 1000000) = "0.007812".
Proof. split; vm_compute; reflexivity. Qed.

(** ** Lists of a batch *)

Lemma zip3_length {A B C} (xs : list A) (ys : list B) (zs : list C) (n : nat) :
  List.length xs = n -> List.length ys = n -> List.length zs = n ->
  List.length (zip3 xs ys zs) = n.
Proof.
  revert ys zs n. induction xs as [|x xs IH]; intros [|y ys] [|z zs] n;
    simpl; intros; subst; try discriminate; auto.
Qed.

Lemma enumerate_length {A} (items : list A) :
  List.length (enumerate items) = List.length items.
Proof.
  unfold enumerate. rewrite length_combine, length_seq. apply Nat.min_id.
Qed.

Lemma enumerate_In {A} (items : list A) (i : nat) (x : A) :
  In (i, x) (enumerate items) -> In x items.
Proof. unfold enumerate. apply in_combine_r. Qed.

Lemma nth_error_middle {A} (l : list A) (i : nat) (x : A) :
  nth_error l i = Some x -> l = (firstn i l ++ x :: skipn (S i) l)%list.
Proof.
  revert i. induction l as [|y l IH]; intros [|i]; simpl; try discriminate.
  - intros [= ->]. reflexivity.
  - intros H. f_equal. apply (IH i H).
Qed.

Lemma last_wave_nth {E : IDL} (rs : list (ndarray * ndarray))
    (start : option ndarray) :
  rs <> [] ->
  last_wave start rs = nth_error (map fst rs) (List.length rs - 1).
Proof.
  revert start. induction rs as [|r rs IH]; intros start Hne; [congruence|].
  destruct rs as [|r' rs]; [reflexivity|].
  change (last_wave start (r :: r' :: rs))
    with (last_wave (Some (fst r)) (r' :: rs)).
  rewrite IH by discriminate. simpl. now rewrite Nat.sub_0_r.
Qed.

Lemma last_wave_bound {E : IDL} (rs : list (ndarray * ndarray))
    (wave : ndarray) :
  last_wave None rs = Some wave -> rs <> [].
Proof. destruct rs; [discriminate | discriminate]. Qed.

(** ** Claims on [get_idl_spectra] *)

Section GetIdlSpectra.

Context {E : IDL}.

Variables (wl_min wl_max resolution norm : number).
Variable wl_per_pixel : pyval.

Let rq := request wl_min wl_max resolution norm wl_per_pixel.

Lemma body_collects :
  collects rq
    (get_idl_spectra_body wl_min wl_max resolution norm wl_per_pixel).
Proof.
  intros [star_i [[teff logg] feh]] [wave spectra] w.
  unfold rq, get_idl_spectra_body, request.
  rewrite !bind_lift.
  destruct (PyFormat.format _ _) as [line|e]; [|reflexivity].
  unfold bind, print.
  destruct (get_idl_spectrum _ _ _ _ _ _ _ _ _ _) as [[[a b]|e] w1];
    reflexivity.
Qed.

Lemma request_returns (step : number) (item : nat * (number * number * number)) :
  reliable E ->
  (let '(_, (teff, logg, feh)) := item in valid_star teff logg feh) ->
  valid_range wl_min wl_max ->
  int_like resolution -> int_like norm ->
  wl_per_pixel = VNum step -> float_like step ->
  forall w, exists r w1, rq item w = (Return r, w1).
Proof.
  destruct item as [star_i [[teff logg] feh]].
  intros Hrel Hstar Hrange Hr Hn Hw Hs w.
  unfold rq, request. rewrite bind_lift, format_star_line.
  destruct Hstar as (Ht & Hl & Hf).
  destruct (within_int_like _ _ _ Ht) as [t ->].
  destruct (within_float_like (-1) 5.5 logg) as [l ->]; try lra; auto.
  destruct (within_float_like (-5) 1 feh) as [f ->]; try lra; auto.
  cbn [and_then]. unfold bind at 1. unfold print.
  apply (get_idl_spectrum_returns teff logg feh wl_min wl_max resolution
           norm wl_per_pixel step); auto.
  repeat split; assumption.
Qed.

Lemma request_resampled (item : nat * (number * number * number))
    (w w' : world) (r : ndarray * ndarray) :
  rq item w = (Return r, w') ->
  exists earlier grid,
    PyFormat.format "waveout = [%i+%f:%i-2*%f:%f]"
      [VNum wl_min; wl_per_pixel; VNum wl_max; wl_per_pixel; wl_per_pixel]
    = Return grid
    /\ calls w' = (earlier ++ [grid; resamp_text; assign_text])%list
    /\ ev "wave" (idl w') = Done (fst r).
Proof.
  destruct item as [star_i [[teff logg] feh]]. destruct r as [a b].
  unfold rq, request. rewrite bind_lift.
  destruct (PyFormat.format "Star %i, [%i, %0.2f, %0.2f]" _) as [line|e];
    [|discriminate].
  unfold bind at 1. unfold print. intros H.
  apply get_idl_spectrum_resampled in H.
  destruct H as (cmd & grid & _ & Hgrid & -> & Ha & _).
  exists (calls w ++ [CFe_text; cmd])%list, grid.
  split; [exact Hgrid|]. split; [|exact Ha].
  rewrite calls_after. cbn [calls]. rewrite <- app_assoc. reflexivity.
Qed.

Variables teffs loggs fehs : list number.
Variable do_resample : bool.

Let items := enumerate (zip3 teffs loggs fehs).

(** C6, as amended.  For [N >= 1] stars in the domain, given as three
    sequences of length [N], with a wavelength range in bounds, a
    resolution and a [norm] that have integer values, a numeric
    [wl_per_pixel] and a process that does not fail, [get_idl_spectra]
    returns: the requests are served one after the other in the order of
    the input, the table has [N] rows, row [i] is the spectrum returned
    by the request for star [i], and the wavelengths are those returned
    by the last request. *)
Theorem batch_rows_follow_input (N : nat) (step : number) (w : world) :
  List.length teffs = N -> List.length loggs = N -> List.length fehs = N ->
  (1 <= N)%nat ->
  Forall (fun '(teff, logg, feh) => valid_star teff logg feh)
         (zip3 teffs loggs fehs) ->
  valid_range wl_min wl_max ->
  int_like resolution -> int_like norm ->
  wl_per_pixel = VNum step -> float_like step ->
  reliable E ->
  exists rs w' wave,
    get_idl_spectra teffs loggs fehs wl_min wl_max resolution norm
      do_resample wl_per_pixel w
    = (Return (wave, map snd rs), w')
    /\ List.length (map snd rs) = N
    /\ served rq w items rs w'
    /\ (forall i item,
          nth_error items i = Some item ->
          exists wi wi' r,
            served rq w (firstn i items) (firstn i rs) wi
            /\ rq item wi = (Return r, wi')
            /\ nth_error (map snd rs) i = Some (snd r))
    /\ nth_error (map fst rs) (N - 1) = Some wave.
Proof.
  intros Ht Hl Hf HN Hall Hrange Hr Hn Hw Hs Hrel.
  assert (Hlen : List.length items = N).
  { unfold items. rewrite enumerate_length. now apply zip3_length. }
  destruct (served_total rq items) with (w := w) as (rs & w' & Hserved).
  { intros [i [[teff logg] feh]] Hin. apply (request_returns step); auto.
    apply enumerate_In in Hin. rewrite Forall_forall in Hall.
    apply (Hall _ Hin). }
  pose proof (served_length rq items w rs w' Hserved) as Hrs.
  assert (Hne : rs <> []).
  { intros ->. simpl in Hrs. lia. }
  pose proof (last_wave_nth rs None Hne) as Hlast.
  rewrite Hrs, Hlen in Hlast.
  destruct (nth_error (map fst rs) (N - 1)) as [wave|] eqn:Hnth.
  - exists rs, w', wave. split; [|split; [|split; [|split]]].
    + unfold get_idl_spectra. unfold bind at 1.
      fold items.
      rewrite (for_each_served rq _ body_collects items (None, []) w rs w'
                 Hserved).
      cbn [fst snd]. rewrite Hlast. reflexivity.
    + rewrite length_map. congruence.
    + exact Hserved.
    + intros i item Hi.
      destruct (served_nth rq items w rs w' i item Hserved Hi)
        as (wi & wi' & r & H1 & H2 & H3).
      exists wi, wi', r. split; [exact H1|]. split; [exact H2|].
      rewrite nth_error_map, H3. reflexivity.
    + exact Hnth.
  - exfalso. apply nth_error_None in Hnth. rewrite length_map in Hnth. lia.
Qed.

(** C7.  [get_idl_spectra] catches nothing: when the requests before
    index [i] are served and the request for star [i] (its line printed,
    then [get_idl_spectrum]) raises [e], the call raises [e] from the
    state the failing request left; the outcome is the exception, not a
    table, so that the spectra collected before are not returned. *)
Theorem batch_aborts_at_first_failure (i : nat)
    (item : nat * (number * number * number))
    (rs : list (ndarray * ndarray)) (e : exn) (w w1 w2 : world) :
  served rq w (firstn i items) rs w1 ->
  nth_error items i = Some item ->
  rq item w1 = (Raise e, w2) ->
  get_idl_spectra teffs loggs fehs wl_min wl_max resolution norm
    do_resample wl_per_pixel w
  = (Raise e, w2).
Proof.
  intros Hserved Hnth Hraise.
  unfold get_idl_spectra. unfold bind at 1. fold items.
  rewrite (nth_error_middle items i item Hnth).
  rewrite (for_each_raises rq _ body_collects (firstn i items) item
             (skipn (S i) items) (None, []) w rs w1 e w2 Hserved Hraise).
  reflexivity.
Qed.

(** C10.  The argument [do_resample] of [get_idl_spectra] is not used:
    the call is the same for every value of it, each request being made
    with [do_resample=True].  When the call returns, the last three
    commands sent are those of the resampling (the grid, [resamp],
    [wave = waveout]) and the wavelengths returned are the array [wave]
    the process then holds. *)
Theorem batch_always_resamples (w : world) :
  (forall other,
     get_idl_spectra teffs loggs fehs wl_min wl_max resolution norm
       do_resample wl_per_pixel w
     = get_idl_spectra teffs loggs fehs wl_min wl_max resolution norm
         other wl_per_pixel w)
  /\ (forall wave rows w',
        get_idl_spectra teffs loggs fehs wl_min wl_max resolution norm
          do_resample wl_per_pixel w
        = (Return (wave, rows), w') ->
        exists rs earlier grid,
          served rq w items rs w'
          /\ rows = map snd rs
          /\ PyFormat.format "waveout = [%i+%f:%i-2*%f:%f]"
               [VNum wl_min; wl_per_pixel; VNum wl_max; wl_per_pixel;
                wl_per_pixel] = Return grid
          /\ calls w' = (earlier ++ [grid; resamp_text; assign_text])%list
          /\ ev "wave" (idl w') = Done wave).
Proof.
  split; [reflexivity|].
  intros wave rows w'. unfold get_idl_spectra. unfold bind at 1.
  fold items.
  destruct (for_each (get_idl_spectra_body wl_min wl_max resolution norm
                        wl_per_pixel) items (None, []) w)
    as [[[wv sp]|e] w1] eqn:Hloop;
    [|discriminate].
  apply (for_each_returns rq _ body_collects) in Hloop.
  destruct Hloop as (rs & Hserved & [= -> ->]). cbn [fst snd].
  destruct (last_wave None rs) as [wv|] eqn:Hlast; [|discriminate].
  simpl. unfold bind, ret. simpl. intros [= <- <- <-].
  assert (Hne : items <> []).
  { intros Hnil. apply last_wave_bound in Hlast. apply Hlast.
    pose proof (served_length rq items w rs w1 Hserved) as Hlen.
    rewrite Hnil in Hlen. now destruct rs. }
  destruct (served_last rq items w rs w1 None Hserved Hne)
    as (item & w0 & r & Hr & Hw).
  rewrite Hlast in Hw. injection Hw as ->.
  destruct (request_resampled item w0 w1 r Hr)
    as (earlier & grid & Hgrid & Hcalls & Hev).
  exists rs, earlier, grid. auto.
Qed.

End GetIdlSpectra.

(** ** [retrieve_standards] *)

Lemma cool_dwarf_spec (r : star) :
  cool_dwarf r = true <-> below (teff r) 5500 /\ above (logg r) 4.
Proof.
  unfold cool_dwarf. rewrite andb_true_iff, num_lt_int, num_gt_4_0.
  reflexivity.
Qed.

Lemma select_filter {A} (f : A -> bool) (l : list A) :
  forall n,
    select (map f l) (combine (seq n (List.length l)) l)
    = filter (fun p => f (snd p)) (combine (seq n (List.length l)) l).
Proof.
  induction l as [|a l IH]; intros n; simpl; [reflexivity|].
  rewrite IH. destruct (f a); reflexivity.
Qed.

Lemma In_numbered {A} (l : list A) (i : nat) (x : A) :
  forall n,
    In (i, x) (combine (seq n (List.length l)) l)
    <-> (n <= i)%nat /\ nth_error l (i - n) = Some x.
Proof.
  induction l as [|a l IH]; intros n; simpl.
  - split; [tauto|]. intros [_ H]. destruct (i - n)%nat; discriminate.
  - rewrite IH. split.
    + intros [[= <- <-] | [Hle Hnth]].
      * split; [lia|]. now rewrite Nat.sub_diag.
      * split; [lia|]. replace (i - n)%nat with (S (i - S n)) by lia.
        exact Hnth.
    + intros [Hle Hnth]. destruct (i - n)%nat as [|k] eqn:Hk.
      * left. injection Hnth as ->. f_equal. lia.
      * right. split; [lia|]. replace (i - S n)%nat with k by lia.
        exact Hnth.
Qed.

(** The rows the loop of [retrieve_standards] goes through are the rows of
    the table with [teff < 5500] and [logg > 4.0], under their index. *)
Lemma cool_dwarfs_selected (standards : list star) (i : nat) (r : star) :
  In (i, r) (select (map cool_dwarf standards) (indexed standards))
  <-> nth_error standards i = Some r
      /\ below (teff r) 5500 /\ above (logg r) 4.
Proof.
  unfold indexed. rewrite select_filter, filter_In, In_numbered.
  simpl. rewrite cool_dwarf_spec, Nat.sub_0_r.
  split; [tauto|]. intros [H1 H2]. repeat split; try tauto. lia.
Qed.

Lemma select_nonempty {A} (f : A -> bool) (l : list A) :
  forall n,
    Exists (fun r => f r = true) l ->
    select (map f l) (combine (seq n (List.length l)) l) <> [].
Proof.
  induction l as [|a l IH]; intros n Hex; inversion Hex; subst; simpl.
  - match goal with H : f a = true |- _ => rewrite H end. discriminate.
  - destruct (f a); [discriminate|]. now apply IH.
Qed.

Section RetrieveStandards.

Context {E : IDL} {T : TheCannon}.

Lemma idl_init_sends (w : world) :
  idl_init w = send_all idl_init_texts (spawned w).
Proof.
  unfold idl_init, idl_init_texts, pidly_IDL, spawned.
  unfold bind at 1. cbn [send_all].
  unfold bind, call, ret; simpl.
  repeat match goal with
         | |- context [ex ?c ?p] =>
             destruct (ex c p) as [? [?|]]; simpl; try reflexivity
         end.
Qed.

(** C8: the module as it is written.  On a table with at least one cool
    dwarf, [retrieve_standards] does not return: when IDL is set up, the
    first turn of the loop prints the index and raises
    [NameError] for [wl_per_pixel], which the module assigns only when
    [using_echelle] is set.  The commands sent are those of [idl_init]
    (or the first of them, when the process fails): no spectrum is
    requested for any row. *)
Theorem retrieve_standards_stops_at_wl_per_pixel
    (standards : list star) (w : world) :
  Exists (fun r => below (teff r) 5500 /\ above (logg r) 4) standards ->
  exists e w' k,
    retrieve_standards standards w = (Raise e, w')
    /\ (e = NameError "wl_per_pixel" \/ exists msg, e = IDLError msg)
    /\ calls w' = (calls w ++ firstn k idl_init_texts)%list.
Proof.
  intros Hex.
  assert (Hsel : select (map cool_dwarf standards) (indexed standards)
                 <> []).
  { apply select_nonempty. eapply Exists_impl; [|exact Hex].
    intros r Hr. now apply cool_dwarf_spec. }
  unfold retrieve_standards, retrieve_standards_with.
  fold cool_dwarf.
  change (map (fun r : star => cool_dwarf r) standards)
    with (map cool_dwarf standards).
  destruct (select (map cool_dwarf standards) (indexed standards))
    as [|[star_i row] rest]; [congruence|].
  unfold bind at 1. rewrite idl_init_sends.
  destruct (send_all_run idl_init_texts (spawned w))
    as (k & Hk & Hw & Hret & Hexn).
  destruct (send_all idl_init_texts (spawned w)) as [[[]|e] w1];
    cbn [fst snd] in *.
  - exists (NameError "wl_per_pixel").
    eexists. exists k. split; [reflexivity|]. split; [auto|].
    subst w1. reflexivity.
  - destruct (Hexn e eq_refl) as [msg ->].
    exists (IDLError msg), w1, k. split; [reflexivity|].
    split; [eauto|]. subst w1. reflexivity.
Qed.

(** X13.  When [wl_per_pixel] is assigned (as it is with [using_echelle])
    with a step and a range in order, with a process that does not fail,
    and on a table that has at least one cool dwarf and whose cool dwarfs
    are all in the domain: a spectrum is requested for each cool dwarf, in
    the order of the table; the spectra, and then the wavelengths of the
    last request, are written; the Cannon model is then built from the cool
    dwarfs and the spectra.  The function returns when the library builds
    the model and raises what the library raises otherwise (the import of
    [thecannon] included), in both cases after the two files were written
    and without another command to IDL. *)
Lemma retrieve_standards_with_serves_cool_dwarfs (g : properties)
    (step : number) (standards : list star) (w : world) :
  wl_per_pixel g = Some step -> float_like step ->
  valid_range (PyInt (wl_min g)) (PyInt (wl_max g)) ->
  reliable E ->
  Forall (fun r => cool_dwarf r = true ->
                   valid_star (teff r) (logg r) (feh r)) standards ->
  Exists (fun r => cool_dwarf r = true) standards ->
  exists rs w1 wave w',
    served (standard_request g step) (after (spawned w) idl_init_texts)
      (select (map cool_dwarf standards) (indexed standards)) rs w1
    /\ last_wave None rs = Some wave
    /\ retrieve_standards_with g standards w
       = (match CannonModel (training_set standards) (map snd rs) with
          | None => Return tt
          | Some msg => Raise (CannonError msg)
          end, w')
    /\ files w'
       = (files w1 ++ [("spectra_standards.csv", Table (map snd rs));
                       ("spectra_wavelengths.csv", Column wave)])%list
    /\ calls w' = calls w1
    /\ idl w' = idl w1
    /\ stdout w'
       = (stdout w1
          ++ cannon_log (training_set standards) (map snd rs))%list.
Proof.
  intros Hstep Hfloat Hrange Hrel Hvalid Hex.
  pose proof (select_nonempty cool_dwarf standards 0%nat Hex) as Hne.
  fold (indexed standards) in Hne.
  destruct (served_total (standard_request g step)
              (select (map cool_dwarf standards) (indexed standards)))
    with (w := after (spawned w) idl_init_texts) as (rs & w1 & Hserved).
  { intros [star_i row] Hin w2.
    apply cool_dwarfs_selected in Hin. destruct Hin as (Hnth & Hcool).
    apply cool_dwarf_spec in Hcool. apply nth_error_In in Hnth.
    rewrite Forall_forall in Hvalid. specialize (Hvalid row Hnth Hcool).
    unfold standard_request. unfold bind at 1. unfold print.
    apply (get_idl_spectrum_returns _ _ _ _ _ _ _ (VNum step) step);
      auto; eexists; reflexivity. }
  pose proof (served_length _ _ _ _ _ Hserved) as Hlen.
  assert (Hrs : rs <> []).
  { intros ->. destruct (select _ _); [congruence | discriminate]. }
  destruct (last_wave None rs) as [wave|] eqn:Hlast.
  2:{ rewrite (last_wave_nth rs None Hrs) in Hlast.
      apply nth_error_None in Hlast. rewrite length_map in Hlast.
      destruct rs; [congruence | simpl in Hlast; lia]. }
  exists rs, w1, wave,
    (snd (the_cannon (training_set standards) (map snd rs)
            (written w1 [("spectra_standards.csv", Table (map snd rs));
                         ("spectra_wavelengths.csv", Column wave)]))).
  split; [exact Hserved|]. split; [exact Hlast|].
  split;
    [|unfold the_cannon; destruct (CannonModel _ _); repeat split].
  unfold retrieve_standards_with. unfold bind at 1.
  rewrite idl_init_sends, (send_all_reliable _ _ Hrel).
  fold cool_dwarf.
  change (map (fun r : star => cool_dwarf r) standards)
    with (map cool_dwarf standards).
  unfold bind at 1.
  match goal with
  | |- context [for_each ?body _ _ _] =>
      assert (Hc : collects (standard_request g step) body)
  end.
  { intros [star_i row] [wv sp] w2. unfold standard_request.
    rewrite Hstep. unfold bind, print, global, ret.
    destruct (get_idl_spectrum _ _ _ _ _ _ _ _ _ _) as [[[a b]|e] w3];
      reflexivity. }
  rewrite (for_each_served _ _ Hc _ (None, []) _ rs w1 Hserved).
  cbn [fst snd]. rewrite Hlast.
  unfold bind, savetxt, local, ret, written, the_cannon, training_set.
  simpl. rewrite <- app_assoc.
  destruct (CannonModel _ _); reflexivity.
Qed.

End RetrieveStandards.

(** With [using_echelle] the module assigns the names the loop reads: the
    step is the float nearest to 3000/40000 and the range is in bounds. *)
Lemma echelle_properties :
  wl_per_pixel (module_properties true) = Some (py_float 3000 40000)
  /\ PyFormat.fixed 6 (float_lit 3000 40000) = "0.075000"
  /\ valid_range (PyInt (wl_min (module_properties true)))
                 (PyInt (wl_max (module_properties true))).
Proof. split; [reflexivity|]. split; [vm_compute; reflexivity|concrete]. Qed.

(** ** The claims on concrete requests *)

Lemma echo_idl_reliable : reliable echo_idl.
Proof. split; intros; simpl; eauto. Defined.

(** The scenario of a nominal request: the two commands sent and the
    arrays read back. *)
Lemma nominal_request :
  @get_idl_spectrum echo_idl (PyInt 5000) (py_float 45 10) (py_float 0 10)
    (PyInt 3600) (PyInt 9000) (PyInt 7000) (PyInt 1) false VNone w0
  = (Return (("wave", 2%nat), ("spectrum", 2%nat)),
     after w0
       [ "CFe = 0. ;";
         "spectrum = get_spec(5000, 4.500000, 0.000000, !null, CFe, 3600, 9000, ipres=7000, norm=1, grid=grid, wave=wave)" ]).
Proof. vm_compute. reflexivity. Qed.

(** The same request with resampling, on the grid of step 0.135. *)
Lemma nominal_resampled_request :
  calls (snd (@get_idl_spectrum echo_idl (PyInt 5000) (py_float 45 10)
                (py_float 0 10) (PyInt 3600) (PyInt 9000) (PyInt 7000)
                (PyInt 1) true (VNum demo_step) w0))
  = [ "CFe = 0. ;";
      "spectrum = get_spec(5000, 4.500000, 0.000000, !null, CFe, 3600, 9000, ipres=7000, norm=1, grid=grid, wave=wave)";
      "waveout = [3600+0.135000:9000-2*0.135000:0.135000]";
      "spectrum = resamp(double(wave), double(spectrum), double(waveout))";
      "wave = waveout" ].
Proof. vm_compute. reflexivity. Qed.

(** Numbers given as floats are cut to their integer part by [%d] and
    [%i], and rounded to the nearest even digit by [%f]. *)
Lemma formatting_examples :
  PyFormat.format "%d %i %f %0.2f"
    [VNum (py_float 50007 10); VNum (py_float (-36009) 10);
     VNum (py_float 1 128); VNum (py_float 125 1000)]
  = Return "5000 -3600 0.007812 0.12"
  /\ PyFormat.format "%f %f" [VNum (PyInt (-5)); VNum (PyFloat S754_nan)]
     = Return "-5.000000 nan"
  /\ PyFormat.format "%d" [VNum (PyFloat S754_nan)] = Raise ValueError
  /\ PyFormat.format "%f" [VNone] = Raise TypeError.
Proof. repeat split; vm_compute; reflexivity. Qed.

(** A NaN compares false with every bound: it is on no side of the
    intervals and passes the checks. *)
Lemma nan_passes_the_checks :
  check_bounds (PyFloat S754_nan) (PyFloat S754_nan) (PyFloat S754_nan)
    (PyFloat S754_nan) (PyFloat S754_nan) = None.
Proof. reflexivity. Qed.

(** C1 at [teff = 9000]. *)
Lemma out_of_bounds_raises_before_any_call_witness :
  outside 2500 8000 (PyInt 9000)
  /\ exists msg,
       @get_idl_spectrum echo_idl (PyInt 9000) (py_float 45 10)
         (py_float 0 10) (PyInt 3600) (PyInt 9000) (PyInt 7000) (PyInt 1)
         false VNone w0
       = (Raise (ParameterOutOfBoundsException msg), w0).
Proof.
  assert (H : outside 2500 8000 (PyInt 9000)) by (right; concrete).
  split; [exact H|].
  apply out_of_bounds_raises_before_any_call. left. exact H.
Defined.

(** C2 at [teff = 9000], with a gravity, a metallicity and a wavelength
    range that are out of bounds as well. *)
Lemma first_violated_check_is_reported_witness :
  violated Temperature (PyInt 9000) (PyInt 9) (PyInt 3) (PyInt 4000)
    (PyInt 3000)
  /\ violated Gravity (PyInt 9000) (PyInt 9) (PyInt 3) (PyInt 4000)
       (PyInt 3000)
  /\ violated Metallicity (PyInt 9000) (PyInt 9) (PyInt 3) (PyInt 4000)
       (PyInt 3000)
  /\ violated Wavelengths (PyInt 9000) (PyInt 9) (PyInt 3) (PyInt 4000)
       (PyInt 3000)
  /\ @get_idl_spectrum echo_idl (PyInt 9000) (PyInt 9) (PyInt 3)
       (PyInt 4000) (PyInt 3000) (PyInt 7000) (PyInt 1) false VNone w0
     = (Raise (ParameterOutOfBoundsException
                 "Temperature must be 2500 <= Teff (K) <= 8000"), w0)
  /\ mentions "Temperature" "Temperature must be 2500 <= Teff (K) <= 8000"
     = true.
Proof.
  assert (H : violated Temperature (PyInt 9000) (PyInt 9) (PyInt 3)
                (PyInt 4000) (PyInt 3000)) by (right; concrete).
  split; [exact H|].
  split; [right; concrete|].
  split; [right; concrete|].
  split; [left; concrete|].
  apply (@first_violated_check_is_reported echo_idl (PyInt 9000) (PyInt 9)
           (PyInt 3) (PyInt 4000) (PyInt 3000) (PyInt 7000) (PyInt 1) false
           VNone Temperature w0 H).
  intros d [].
Defined.

(** C3 as stated fails at its own input: the message raised for the
    inverted range 4000, 3000 is also raised for the range 1000, 3000,
    which is in order. *)
Lemma inverted_range_message_does_not_identify_ordering :
  exists msg,
    @get_idl_spectrum echo_idl (PyInt 5000) (py_float 45 10) (py_float 0 10)
      (PyInt 4000) (PyInt 3000) (PyInt 7000) (PyInt 1) false VNone w0
    = (Raise (ParameterOutOfBoundsException msg), w0)
    /\ ~ identifies_ordering msg.
Proof.
  exists (message Wavelengths). split; [reflexivity|].
  intros H.
  specialize (H echo_idl w0 w0 (PyInt 5000) (py_float 45 10)
                (py_float 0 10) (PyInt 1000) (PyInt 3000) (PyInt 7000)
                (PyInt 1) false VNone eq_refl).
  vm_compute in H. discriminate.
Qed.

(** C3 as amended, at the input of the claim. *)
Lemma inverted_range_reports_wavelengths_witness :
  valid_star (PyInt 5000) (py_float 45 10) (py_float 0 10)
  /\ exceeds (PyInt 4000) (PyInt 3000)
  /\ @get_idl_spectrum echo_idl (PyInt 5000) (py_float 45 10)
       (py_float 0 10) (PyInt 4000) (PyInt 3000) (PyInt 7000) (PyInt 1)
       false VNone w0
     = (Raise (ParameterOutOfBoundsException
                 "Wavelengths must be 2,000 <= lambda (A) <= 60,000"), w0).
Proof.
  assert (H1 : valid_star (PyInt 5000) (py_float 45 10) (py_float 0 10))
    by concrete.
  assert (H2 : exceeds (PyInt 4000) (PyInt 3000)) by concrete.
  split; [exact H1|]. split; [exact H2|].
  exact (proj1 (@inverted_range_reports_wavelengths echo_idl (PyInt 5000)
                  (py_float 45 10) (py_float 0 10) (PyInt 4000) (PyInt 3000)
                  (PyInt 7000) (PyInt 1) false VNone w0 H1 H2)).
Defined.

(** C5 on the nominal request, at resolution 7000.5 and with a process
    that does not fail: ["CFe = 0. ;"] is sent, and then the synthesis
    command with the numbers as the formats write them. *)
Lemma synthesis_command_text_witness :
  exists rest,
    calls (snd (@get_idl_spectrum echo_idl (PyInt 5000) (py_float 45 10)
                  (py_float 0 10) (PyInt 3600) (PyInt 9000)
                  (py_float 70005 10) (PyInt 1) false VNone w0))
    = (calls w0
       ++ "CFe = 0. ;"
          :: ("spectrum = get_spec(5000, 4.500000, 0.000000, !null, CFe, "
              ++ "3600, 9000, ipres=7000, norm=1, grid=grid, wave=wave)")%string
          :: rest)%list.
Proof.
  pose proof (@synthesis_command_text echo_idl (PyInt 5000) (py_float 45 10)
                (py_float 0 10) (PyInt 3600) (PyInt 9000)
                (py_float 70005 10) (PyInt 1) false VNone w0) as H.
  cbv zeta in H. destruct H as (_ & _ & _ & H).
  destruct (H 5000 (float_lit 45 10) (float_lit 0 10) 3600 9000 7000 1)
    as [rest [Hc _]].
  - apply check_bounds_none. vm_compute. reflexivity.
  - reflexivity.
  - vm_compute. reflexivity.
  - vm_compute. reflexivity.
  - vm_compute. reflexivity.
  - vm_compute. reflexivity.
  - vm_compute. reflexivity.
  - vm_compute. reflexivity.
  - vm_compute. reflexivity.
  - exists rest. rewrite Hc. vm_compute. reflexivity.
Defined.

(** C9 at the end points: the lower ones with an equal-endpoint range at
    2000, the upper ones with an equal-endpoint range at 200000. *)
Lemma closed_bounds_are_accepted_witness :
  is_out_of_bounds
    (fst (@get_idl_spectrum echo_idl (PyInt 2500) (PyInt (-1)) (PyInt (-5))
            (PyInt 2000) (PyInt 2000) (PyInt 7000) (PyInt 1) false VNone
            w0)) = false
  /\ is_out_of_bounds
       (fst (@get_idl_spectrum echo_idl (PyInt 8000) (py_float 55 10)
               (py_float 10 10) (PyInt 200000) (PyInt 200000) (PyInt 7000)
               (PyInt 1) false VNone w0)) = false.
Proof.
  split; apply closed_bounds_are_accepted; concrete.
Defined.

(** C6 as stated fails for the empty batch: nothing binds [wave], and the
    [return] raises instead of giving a table with no row.  It also fails
    for a star in the domain when the caller asks for no resampling and
    leaves [wl_per_pixel=None]: the request is resampled all the same and
    the grid command cannot be formatted. *)
Lemma empty_batch_raises :
  @get_idl_spectra echo_idl [] [] [] (PyInt 3600) (PyInt 9000) (PyInt 7000)
    (PyInt 1) true (VNum demo_step) w0
  = (Raise (UnboundLocalError "wave"), w0)
  /\ valid_star (PyInt 5000) (py_float 45 10) (py_float 0 10)
  /\ fst (@get_idl_spectra echo_idl [PyInt 5000] [py_float 45 10]
            [py_float 0 10] (PyInt 3600) (PyInt 9000) (PyInt 7000) (PyInt 1)
            false VNone w0)
     = Raise TypeError.
Proof.
  split; [reflexivity|]. split; [concrete|]. vm_compute. reflexivity.
Qed.

(** C6 as amended, on the two stars. *)
Lemma batch_rows_follow_input_witness :
  exists (rs : list (@ndarray echo_idl * @ndarray echo_idl)) w' wave,
    @get_idl_spectra echo_idl demo_teffs demo_loggs demo_fehs (PyInt 3600)
      (PyInt 9000) (PyInt 7000) (PyInt 1) false (VNum demo_step) w0
    = (Return (wave, map snd rs), w')
    /\ List.length (map snd rs) = 2%nat.
Proof.
  destruct (@batch_rows_follow_input echo_idl (PyInt 3600) (PyInt 9000)
              (PyInt 7000) (PyInt 1) (VNum demo_step) demo_teffs demo_loggs
              demo_fehs false 2 demo_step w0)
    as (rs & w' & wave & H1 & H2 & _); [| | | | | | | | | | |eauto].
  - reflexivity.
  - reflexivity.
  - reflexivity.
  - lia.
  - repeat constructor; concrete.
  - concrete.
  - exists 7000. reflexivity.
  - exists 1. reflexivity.
  - reflexivity.
  - eexists. reflexivity.
  - exact echo_idl_reliable.
Defined.

(** C7 on a batch whose second star has [teff = 9000]: the first request
    is served, the second raises, and so does the batch. *)
Lemma batch_aborts_at_first_failure_witness :
  exists w2,
    @get_idl_spectra echo_idl [PyInt 5000; PyInt 9000; PyInt 4000]
      [py_float 45 10; py_float 45 10; py_float 45 10]
      [PyInt 0; PyInt 0; PyInt 0] (PyInt 3600) (PyInt 9000) (PyInt 7000)
      (PyInt 1) true (VNum demo_step) w0
    = (Raise (ParameterOutOfBoundsException
                "Temperature must be 2500 <= Teff (K) <= 8000"), w2).
Proof.
  eexists.
  eapply (@batch_aborts_at_first_failure echo_idl (PyInt 3600) (PyInt 9000)
            (PyInt 7000) (PyInt 1) (VNum demo_step)
            [PyInt 5000; PyInt 9000; PyInt 4000]
            [py_float 45 10; py_float 45 10; py_float 45 10]
            [PyInt 0; PyInt 0; PyInt 0] true 1%nat).
  - eapply served_cons; [vm_compute; reflexivity | apply served_nil].
  - reflexivity.
  - vm_compute. reflexivity.
Defined.

(** C10 on the two stars, called with [do_resample=False]. *)
Lemma batch_always_resamples_witness :
  exists wave rows w' earlier grid,
    @get_idl_spectra echo_idl demo_teffs demo_loggs demo_fehs (PyInt 3600)
      (PyInt 9000) (PyInt 7000) (PyInt 1) false (VNum demo_step) w0
    = (Return (wave, rows), w')
    /\ calls w' = (earlier ++ [grid; resamp_text; assign_text])%list
    /\ @ev echo_idl "wave" (idl w') = Done wave.
Proof.
  destruct (@batch_always_resamples echo_idl (PyInt 3600) (PyInt 9000)
              (PyInt 7000) (PyInt 1) (VNum demo_step) demo_teffs demo_loggs
              demo_fehs false w0) as [_ H].
  edestruct H as (rs & earlier & grid & _ & _ & _ & Hcalls & Hev).
  - vm_compute. reflexivity.
  - do 5 eexists. split; [vm_compute; reflexivity|].
    split; [exact Hcalls | exact Hev].
Defined.

(** C8 on a table with one cool dwarf. *)
Lemma retrieve_standards_stops_at_wl_per_pixel_witness :
  exists e w' k,
    @retrieve_standards echo_idl demo_cannon
      [ {| source_id := "HD 1"; teff := PyInt 5000; logg := py_float 45 10;
           feh := py_float 0 10 |} ] w0
    = (Raise e, w')
    /\ (e = NameError "wl_per_pixel" \/ exists msg, e = IDLError msg)
    /\ calls w' = (calls w0 ++ firstn k idl_init_texts)%list.
Proof.
  apply retrieve_standards_stops_at_wl_per_pixel.
  constructor. concrete.
Defined.

(** With [using_echelle] set and the library installed, the rows 0 and 2
    of the table of standards are requested, in this order, the two files
    are written and the function returns. *)
Lemma echelle_standards_example :
  select (map cool_dwarf demo_standards) (indexed demo_standards)
  = [(0%nat, HD1); (2%nat, HD3)]
  /\ exists rs w1 wave w',
       served (standard_request (module_properties true)
                 (py_float 3000 40000))
         (after (spawned w0) idl_init_texts) [(0%nat, HD1); (2%nat, HD3)]
         rs w1
       /\ @retrieve_standards_with echo_idl demo_cannon
            (module_properties true) demo_standards w0
          = (Return tt, w')
       /\ files w'
          = (files w1 ++ [("spectra_standards.csv", Table (map snd rs));
                          ("spectra_wavelengths.csv", Column wave)])%list
       /\ calls w' = calls w1.
Proof.
  split; [vm_compute; reflexivity|].
  destruct (@retrieve_standards_with_serves_cool_dwarfs echo_idl demo_cannon
              (module_properties true) (py_float 3000 40000)
              demo_standards w0)
    as (rs & w1 & wave & w' & H1 & _ & H2 & H3 & H4 & _).
  - reflexivity.
  - eexists. reflexivity.
  - concrete.
  - exact echo_idl_reliable.
  - repeat (apply Forall_cons; [intros _; concrete|]). apply Forall_nil.
  - constructor. vm_compute. reflexivity.
  - exists rs, w1, wave, w'.
    split; [exact H1 | split; [exact H2 | split; [exact H3 | exact H4]]].
Defined.

(** * Further properties of the module *)

(** ** [get_idl_spectrum] *)

Lemma check_bounds_some_first (teff logg feh wl_min wl_max : number)
    (e : exn) :
  check_bounds teff logg feh wl_min wl_max = Some e ->
  exists c,
    e = ParameterOutOfBoundsException (message c)
    /\ violated c teff logg feh wl_min wl_max
    /\ forall d, In d (before c) -> ~ violated d teff logg feh wl_min wl_max.
Proof.
  unfold check_bounds.
  destruct (num_gt teff (PyInt 8000) || num_lt teff (PyInt 2500)) eqn:Ht.
  { intros [= <-]. exists Temperature. apply teff_check in Ht.
    split; [reflexivity|]. split; [exact Ht|]. intros d []. }
  destruct (num_gt logg lit_5_5 || num_lt logg (PyInt (-1))) eqn:Hl.
  { intros [= <-]. exists Gravity. apply logg_check in Hl.
    split; [reflexivity|]. split; [exact Hl|].
    intros d [<- | []] H. apply teff_check in H. congruence. }
  destruct (num_gt feh lit_1_0 || num_lt feh (PyInt (-5))) eqn:Hf.
  { intros [= <-]. exists Metallicity. apply feh_check in Hf.
    split; [reflexivity|]. split; [exact Hf|].
    intros d [<- | [<- | []]] H;
      [apply teff_check in H | apply logg_check in H]; congruence. }
  destruct (num_gt wl_min wl_max || num_gt wl_max (PyInt 200000)
            || num_lt wl_min (PyInt 2000)) eqn:Hw; [|discriminate].
  intros [= <-]. exists Wavelengths. apply wavelength_check in Hw.
  split; [reflexivity|]. split; [exact Hw|].
  intros d [<- | [<- | [<- | []]]] H;
    [apply teff_check in H | apply logg_check in H | apply feh_check in H];
    congruence.
Qed.

Section Requests_further.

Context {E : IDL}.

Variables (teff logg feh wl_min wl_max resolution norm : number).
Variables (do_resample : bool) (wl_per_pixel : pyval).

(** X1.  [get_idl_spectrum] raises [ParameterOutOfBoundsException] only
    for a request that violates a check: the state is then unchanged and
    the message is that of the first check, in the order of the chain,
    that the request violates.  Nothing that comes after the checks
    (formatting, the calls to IDL) raises this exception. *)
Theorem out_of_bounds_only_when_violated (msg : string) (w w' : world) :
  get_idl_spectrum teff logg feh wl_min wl_max resolution norm do_resample
    wl_per_pixel w
  = (Raise (ParameterOutOfBoundsException msg), w') ->
  w' = w
  /\ exists c,
       msg = message c
       /\ violated c teff logg feh wl_min wl_max
       /\ forall d, In d (before c) ->
                    ~ violated d teff logg feh wl_min wl_max.
Proof.
  destruct (check_bounds teff logg feh wl_min wl_max) as [e|] eqn:Hcb.
  - rewrite (get_idl_spectrum_rejected _ _ _ _ _ _ _ _ _ e w Hcb).
    destruct (check_bounds_some_first _ _ _ _ _ _ Hcb)
      as (c & -> & Hc & Hfirst).
    intros [= <- <-]. split; [reflexivity|]. exists c. auto.
  - rewrite (get_idl_spectrum_accepted _ _ _ _ _ _ _ _ _ _ Hcb).
    intros Hp. exfalso.
    match type of Hp with
    | play ?s w = _ =>
        destruct (play_run s w) as (k & _ & _ & _ & He);
          rewrite Hp in He; cbn [fst] in He;
          destruct (He _ eq_refl) as [[m Hm] | Hs]
    end.
    + discriminate.
    + apply script_exception in Hs. discriminate.
Qed.

(** X3.  [get_idl_spectrum] writes no file; it only adds commands at the
    end of those sent: at most two, and at most five with resampling.  It
    prints nothing of its own: what the standard output gains is what IDL
    printed for these commands, in their order. *)
Theorem get_idl_spectrum_only_sends_commands (w w' : world)
    (o : outcome (ndarray * ndarray)) :
  get_idl_spectrum teff logg feh wl_min wl_max resolution norm do_resample
    wl_per_pixel w = (o, w') ->
  files w' = files w
  /\ exists cmds,
       calls w' = (calls w ++ cmds)%list
       /\ stdout w' = (stdout w ++ echoed cmds (idl w))%list
       /\ (List.length cmds <= if do_resample then 5 else 2)%nat.
Proof.
  intros Hrun.
  assert (Hw : w' = snd (get_idl_spectrum teff logg feh wl_min wl_max
                           resolution norm do_resample wl_per_pixel w))
    by now rewrite Hrun.
  subst w'. clear Hrun o.
  destruct (check_bounds teff logg feh wl_min wl_max) as [e|] eqn:Hcb.
  - rewrite (get_idl_spectrum_rejected _ _ _ _ _ _ _ _ _ e w Hcb).
    split; [reflexivity|]. exists []. simpl. rewrite !app_nil_r.
    split; [reflexivity|]. split; [reflexivity|].
    destruct do_resample; lia.
  - rewrite (get_idl_spectrum_accepted _ _ _ _ _ _ _ _ _ _ Hcb).
    match goal with
    | |- context [play ?s w] =>
        destruct (play_run s w) as (k & Hk & -> & _ & _);
          remember s as sc eqn:Hsc
    end.
    split; [reflexivity|]. exists (firstn k (fst sc)).
    split; [reflexivity|]. split; [reflexivity|].
    rewrite length_firstn.
    assert (Hlen : (List.length (fst sc)
                    <= if do_resample then 5 else 2)%nat).
    { subst sc. unfold script.
      destruct (PyFormat.format synthesis_format _); [|destruct do_resample; simpl; lia].
      destruct do_resample; [|simpl; lia].
      destruct (PyFormat.format _ _); simpl; lia. }
    lia.
Qed.

(** X9.  Without resampling the step is not looked at: the call is the
    same for every value of [wl_per_pixel], [None] included. *)
Theorem step_is_unused_without_resampling (other : pyval) (w : world) :
  get_idl_spectrum teff logg feh wl_min wl_max resolution norm false
    wl_per_pixel w
  = get_idl_spectrum teff logg feh wl_min wl_max resolution norm false
      other w.
Proof.
  destruct (check_bounds teff logg feh wl_min wl_max) as [e|] eqn:Hcb.
  - now rewrite !(get_idl_spectrum_rejected _ _ _ _ _ _ _ _ _ e w Hcb).
  - rewrite !(get_idl_spectrum_accepted _ _ _ _ _ _ _ _ _ _ Hcb).
    unfold script. destruct (PyFormat.format synthesis_format _); reflexivity.
Qed.

End Requests_further.

Lemma play_reliable_exception {E : IDL} (cmds : list string) (e : exn)
    (w : world) :
  reliable E -> play (cmds, Some e) w = (Raise e, after w cmds).
Proof.
  intros Hrel. unfold play. cbn [fst snd]. unfold bind.
  rewrite (send_all_reliable cmds w Hrel). reflexivity.
Qed.

Lemma valid_range_in_order (wl_min wl_max : number) :
  valid_range wl_min wl_max ->
  ~ (exceeds wl_min wl_max \/ above wl_max 200000 \/ below wl_min 2000).
Proof.
  intros (Ha & Hb & Hab).
  unfold within, ordered, exceeds, above, below in *.
  destruct (num_value wl_min) as [[| x |]|]; try tauto.
  destruct (num_value wl_max) as [[| y |]|]; try tauto.
  simpl. intros [H | [H | H]]; lra.
Qed.

Lemma nan_not_outside (lo hi : Q) : ~ outside lo hi (PyFloat S754_nan).
Proof. intros [H | H]; exact H. Qed.

Lemma prefix_append (s x : string) : String.prefix s (s ++ x) = true.
Proof.
  induction s as [|c s IH]; simpl.
  - destruct x; reflexivity.
  - destruct (Ascii.ascii_dec c c); [exact IH | congruence].
Qed.

Lemma get_spec_text_prefix (t : Z) (l f : spec_float) (a b r n : Z) :
  String.prefix "spectrum = get_spec(" (get_spec_text t l f a b r n) = true.
Proof. unfold get_spec_text. apply prefix_append. Qed.

(** The synthesis command of a request whose numbers have values. *)
Lemma synthesis_formats (teff logg feh wl_min wl_max resolution norm : number) :
  int_like teff -> float_like logg -> float_like feh ->
  int_like wl_min -> int_like wl_max -> int_like resolution ->
  int_like norm ->
  exists t l f a b r n,
    to_int teff = Return t /\ to_float logg = Return l
    /\ to_float feh = Return f /\ to_int wl_min = Return a
    /\ to_int wl_max = Return b /\ to_int resolution = Return r
    /\ to_int norm = Return n
    /\ PyFormat.format synthesis_format
         [VNum teff; VNum logg; VNum feh; VNum wl_min; VNum wl_max;
          VNum resolution; VNum norm]
       = Return (get_spec_text t l f a b r n).
Proof.
  intros [t Ht] [l Hl] [f Hf] [a Ha] [b Hb] [r Hr] [n Hn].
  exists t, l, f, a, b, r, n. rewrite format_get_spec.
  rewrite Ht, Hl, Hf, Ha, Hb, Hr, Hn. cbn [and_then]. repeat split.
Qed.

Lemma valid_request_formats (teff logg feh wl_min wl_max resolution
    norm : number) :
  valid_star teff logg feh -> valid_range wl_min wl_max ->
  int_like resolution -> int_like norm ->
  check_bounds teff logg feh wl_min wl_max = None
  /\ exists t l f a b r n,
       to_int wl_min = Return a /\ to_int wl_max = Return b
       /\ PyFormat.format synthesis_format
            [VNum teff; VNum logg; VNum feh; VNum wl_min; VNum wl_max;
             VNum resolution; VNum norm]
          = Return (get_spec_text t l f a b r n).
Proof.
  intros Hstar Hrange Hr Hn. split.
  { apply check_bounds_none. now apply valid_not_violated. }
  destruct Hstar as (Ht & Hl & Hf). destruct Hrange as (Ha & Hb & _).
  destruct (synthesis_formats teff logg feh wl_min wl_max resolution norm)
    as (t & l & f & a & b & r & n & _ & _ & _ & Ha' & Hb' & _ & _ & Hfmt);
    auto.
  - apply (within_int_like _ _ _ Ht).
  - apply (within_float_like (-1) 5.5); [lra | lra | exact Hl].
  - apply (within_float_like (-5) 1); [lra | lra | exact Hf].
  - apply (within_int_like _ _ _ Ha).
  - apply (within_int_like _ _ _ Hb).
  - exists t, l, f, a, b, r, n. auto.
Qed.

Section Valid_requests.

Context {E : IDL}.

Variables (teff logg feh wl_min wl_max resolution norm : number).

(** X2.  A request in the domain, with a resolution and a [norm] that have
    integer values and, when resampling is asked, a numeric step, fails
    only if IDL does: whatever [get_idl_spectrum] then raises comes from
    the calls to the process. *)
Theorem valid_request_fails_only_in_idl (do_resample : bool)
    (wl_per_pixel : pyval) (e : exn) (w w' : world) :
  valid_star teff logg feh -> valid_range wl_min wl_max ->
  int_like resolution -> int_like norm ->
  (do_resample = true ->
   exists step, wl_per_pixel = VNum step /\ float_like step) ->
  get_idl_spectrum teff logg feh wl_min wl_max resolution norm do_resample
    wl_per_pixel w = (Raise e, w') ->
  exists msg, e = IDLError msg.
Proof.
  intros Hstar Hrange Hr Hn Hstep.
  destruct (valid_request_formats _ _ _ _ _ _ _ Hstar Hrange Hr Hn)
    as (Hcb & t & l & f & a & b & r & n & Ha & Hb & Hfmt).
  rewrite (get_idl_spectrum_accepted _ _ _ _ _ _ _ _ _ _ Hcb), Hfmt.
  intros Hp.
  match type of Hp with
  | play ?s w = _ =>
      destruct (play_run s w) as (k & _ & _ & _ & He);
        rewrite Hp in He; cbn [fst] in He;
        destruct (He _ eq_refl) as [Hidl | Hs]; [exact Hidl|]
  end.
  exfalso. unfold script in Hs. destruct do_resample; [|discriminate].
  destruct (Hstep eq_refl) as (step & -> & [s Hs']).
  rewrite format_waveout, Ha, Hs', Hb in Hs. discriminate.
Qed.

(** X4.  Resampling asked without a step ([wl_per_pixel=None], the
    default): the request is checked and the synthesis is run first, and
    [TypeError] is raised only when the grid command is formatted; with a
    process that does not fail, ["CFe = 0. ;"] and the synthesis command
    have then been sent. *)
Theorem resampling_without_step_raises_after_synthesis (w : world) :
  reliable E ->
  valid_star teff logg feh -> valid_range wl_min wl_max ->
  int_like resolution -> int_like norm ->
  exists cmd,
    get_idl_spectrum teff logg feh wl_min wl_max resolution norm true VNone w
    = (Raise TypeError, after w [CFe_text; cmd])
    /\ String.prefix "spectrum = get_spec(" cmd = true.
Proof.
  intros Hrel Hstar Hrange Hr Hn.
  destruct (valid_request_formats _ _ _ _ _ _ _ Hstar Hrange Hr Hn)
    as (Hcb & t & l & f & a & b & r & n & Ha & Hb & Hfmt).
  exists (get_spec_text t l f a b r n).
  rewrite (get_idl_spectrum_accepted _ _ _ _ _ _ _ _ _ _ Hcb), Hfmt.
  split; [|apply get_spec_text_prefix].
  unfold script.
  replace (PyFormat.format "waveout = [%i+%f:%i-2*%f:%f]"
             [VNum wl_min; VNone; VNum wl_max; VNone; VNone])
    with (@Raise string TypeError).
  - apply play_reliable_exception. exact Hrel.
  - unfold PyFormat.format. parse_format.
    cbn [PyFormat.render PyFormat.convert]. rewrite Ha. reflexivity.
Qed.

(** X5.  A NaN gravity is not rejected (it compares false with both
    bounds): with the other parameters in the domain the request is run,
    and the synthesis command carries the text [nan] in the place of
    [logg]. *)
Theorem nan_logg_is_sent_to_idl (wl_per_pixel : pyval) (w : world) :
  reliable E ->
  within 2500 8000 teff -> within (-5) 1 feh ->
  valid_range wl_min wl_max -> int_like resolution -> int_like norm ->
  exists t f a b r n result,
    get_idl_spectrum teff (PyFloat S754_nan) feh wl_min wl_max resolution
      norm false wl_per_pixel w
    = (Return result,
       after w [CFe_text; get_spec_text t S754_nan f a b r n])
    /\ get_spec_text t S754_nan f a b r n
       = "spectrum = get_spec(" ++ PyFormat.dec t ++ ", nan, "
         ++ PyFormat.fixed 6 f ++ ", !null, CFe, " ++ PyFormat.dec a
         ++ ", " ++ PyFormat.dec b ++ ", ipres=" ++ PyFormat.dec r
         ++ ", norm=" ++ PyFormat.dec n ++ ", grid=grid, wave=wave)".
Proof.
  intros Hrel Ht Hf (Ha & Hb & Hab) Hr Hn.
  assert (Hcb : check_bounds teff (PyFloat S754_nan) feh wl_min wl_max
                = None).
  { apply check_bounds_none.
    intros c Hc. destruct c; simpl in Hc.
    - apply (within_not_outside _ _ _ Ht Hc).
    - apply (nan_not_outside _ _ Hc).
    - apply (within_not_outside _ _ _ Hf Hc).
    - apply (valid_range_in_order wl_min wl_max); [repeat split|]; auto. }
  destruct (synthesis_formats teff (PyFloat S754_nan) feh wl_min wl_max
              resolution norm)
    as (t & l & f & a & b & r & n & _ & Hl & _ & _ & _ & _ & _ & Hfmt);
    auto.
  - apply (within_int_like _ _ _ Ht).
  - eexists. reflexivity.
  - apply (within_float_like (-5) 1); [lra | lra | exact Hf].
  - apply (within_int_like _ _ _ Ha).
  - apply (within_int_like _ _ _ Hb).
  - injection Hl as <-.
    destruct (play_reliable [CFe_text; get_spec_text t S754_nan f a b r n]
                w Hrel) as (x & y & Hp & _).
    exists t, f, a, b, r, n, (x, y).
    rewrite (get_idl_spectrum_accepted _ _ _ _ _ _ _ _ _ _ Hcb), Hfmt.
    split; [exact Hp | reflexivity].
Qed.

(** X6.  A NaN temperature is not rejected either: with the other
    parameters in the domain the state of IDL is changed (["CFe = 0. ;"] is
    sent) before [ValueError] is raised, when the synthesis command is
    formatted. *)
Theorem nan_teff_raises_after_CFe (do_resample : bool)
    (wl_per_pixel : pyval) (w : world) :
  reliable E ->
  within (-1) 5.5 logg -> within (-5) 1 feh -> valid_range wl_min wl_max ->
  get_idl_spectrum (PyFloat S754_nan) logg feh wl_min wl_max resolution norm
    do_resample wl_per_pixel w
  = (Raise ValueError, after w [CFe_text]).
Proof.
  intros Hrel Hl Hf (Ha & Hb & Hab).
  assert (Hcb : check_bounds (PyFloat S754_nan) logg feh wl_min wl_max
                = None).
  { apply check_bounds_none.
    intros c Hc. destruct c; simpl in Hc.
    - apply (nan_not_outside _ _ Hc).
    - apply (within_not_outside _ _ _ Hl Hc).
    - apply (within_not_outside _ _ _ Hf Hc).
    - apply (valid_range_in_order wl_min wl_max); [repeat split|]; auto. }
  rewrite (get_idl_spectrum_accepted _ _ _ _ _ _ _ _ _ _ Hcb).
  rewrite format_get_spec. cbn [to_int and_then script].
  apply play_reliable_exception. exact Hrel.
Qed.

End Valid_requests.

(** ** [get_idl_spectra] and [save_spectra] *)

Lemma zip3_length_min {A B C} (xs : list A) (ys : list B) (zs : list C) :
  List.length (zip3 xs ys zs)
  = Nat.min (List.length xs) (Nat.min (List.length ys) (List.length zs)).
Proof.
  revert ys zs. induction xs as [|x xs IH]; intros [|y ys] [|z zs];
    simpl; auto.
Qed.

Lemma zip3_firstn {A B C} (xs : list A) (ys : list B) (zs : list C) (n : nat) :
  (List.length (zip3 xs ys zs) <= n)%nat ->
  zip3 (firstn n xs) (firstn n ys) (firstn n zs) = zip3 xs ys zs.
Proof.
  revert n ys zs. induction xs as [|x xs IH]; intros n ys zs H.
  - rewrite firstn_nil. reflexivity.
  - destruct ys as [|y ys].
    + rewrite (@firstn_nil B). destruct (firstn n (x :: xs)); reflexivity.
    + destruct zs as [|z zs].
      * rewrite (@firstn_nil C).
        destruct (firstn n (x :: xs)); [reflexivity|].
        destruct (firstn n (y :: ys)); reflexivity.
      * destruct n as [|n]; simpl in H; [lia|].
        simpl. f_equal. apply IH. lia.
Qed.

Section Served_effects.

Context {E : IDL} {A : Type}.

Variable rq : A -> M (ndarray * ndarray).
Variable sends : nat.

(** Each request that returns prints a line (IDL may print more), sends
    [sends] commands and writes no file. *)
Hypothesis rq_effects :
  forall item w r w',
    rq item w = (Return r, w') ->
    (List.length (stdout w) < List.length (stdout w'))%nat
    /\ List.length (calls w') = (List.length (calls w) + sends)%nat
    /\ files w' = files w.

Lemma served_effects (items : list A) :
  forall w rs w',
    served rq w items rs w' ->
    (List.length (stdout w) + List.length items
     <= List.length (stdout w'))%nat
    /\ List.length (calls w')
       = (List.length (calls w) + sends * List.length items)%nat
    /\ files w' = files w.
Proof.
  induction items as [|item items IH]; intros w rs w' Hs;
    inversion Hs as [|w0 item0 r w1 items0 rs0 w2 Hr Hrest]; subst.
  - simpl. repeat split; lia.
  - destruct (rq_effects _ _ _ _ Hr) as (H1 & H2 & H3).
    destruct (IH _ _ _ Hrest) as (H4 & H5 & H6).
    simpl. repeat split; try congruence; lia.
Qed.

End Served_effects.

Section Batches_further.

Context {E : IDL}.

Variables (wl_min wl_max resolution norm : number).
Variable wl_per_pixel : pyval.

Lemma request_effects (item : nat * (number * number * number))
    (w : world) (r : ndarray * ndarray) (w' : world) :
  request wl_min wl_max resolution norm wl_per_pixel item w = (Return r, w') ->
  (List.length (stdout w) < List.length (stdout w'))%nat
  /\ List.length (calls w') = (List.length (calls w) + 5)%nat
  /\ files w' = files w.
Proof.
  destruct item as [star_i [[teff logg] feh]]. destruct r as [a b].
  unfold request. rewrite bind_lift.
  destruct (PyFormat.format "Star %i, [%i, %0.2f, %0.2f]" _) as [line|e];
    [|discriminate].
  unfold bind at 1. unfold print. intros H.
  apply get_idl_spectrum_resampled in H.
  destruct H as (cmd & grid & _ & _ & -> & _ & _).
  unfold after. simpl. rewrite !length_app. simpl. repeat split; lia.
Qed.

Variables teffs loggs fehs : list number.
Variable do_resample : bool.

(** X10.  The three sequences are read together up to the end of the
    shortest: entries of a longer one beyond that are ignored, without an
    error, and a batch that returns has as many rows as the shortest
    sequence has entries. *)
Theorem batch_stops_at_shortest_sequence (w : world) :
  let n := Nat.min (List.length teffs)
             (Nat.min (List.length loggs) (List.length fehs)) in
  get_idl_spectra teffs loggs fehs wl_min wl_max resolution norm do_resample
    wl_per_pixel w
  = get_idl_spectra (firstn n teffs) (firstn n loggs) (firstn n fehs) wl_min
      wl_max resolution norm do_resample wl_per_pixel w
  /\ forall wave rows w',
       get_idl_spectra teffs loggs fehs wl_min wl_max resolution norm
         do_resample wl_per_pixel w = (Return (wave, rows), w') ->
       List.length rows = n.
Proof.
  intros n. split.
  - unfold get_idl_spectra. rewrite zip3_firstn; [reflexivity|].
    rewrite zip3_length_min. fold n. lia.
  - intros wave rows w'. unfold get_idl_spectra. unfold bind at 1.
    destruct (for_each (get_idl_spectra_body wl_min wl_max resolution norm
                          wl_per_pixel)
                (enumerate (zip3 teffs loggs fehs)) (None, []) w)
      as [[[wv sp]|e] w1] eqn:Hloop; [|discriminate].
    apply (for_each_returns _ _ (body_collects wl_min wl_max resolution norm
                                   wl_per_pixel)) in Hloop.
    destruct Hloop as (rs & Hserved & [= -> ->]). cbn [fst snd].
    destruct (last_wave None rs) as [wv|]; [|discriminate].
    simpl. unfold bind, ret. simpl. intros [= <- <- <-].
    apply served_length in Hserved.
    rewrite length_map, Hserved, enumerate_length, zip3_length_min.
    reflexivity.
Qed.

Lemma batch_writes_nothing (wave : ndarray) (rows : list ndarray)
    (w w' : world) :
  get_idl_spectra teffs loggs fehs wl_min wl_max resolution norm do_resample
    wl_per_pixel w = (Return (wave, rows), w') ->
  files w' = files w.
Proof.
  unfold get_idl_spectra. unfold bind at 1.
  destruct (for_each (get_idl_spectra_body wl_min wl_max resolution norm
                        wl_per_pixel)
              (enumerate (zip3 teffs loggs fehs)) (None, []) w)
    as [[[wv sp]|e] w1] eqn:Hloop; [|discriminate].
  apply (for_each_returns _ _ (body_collects wl_min wl_max resolution norm
                                 wl_per_pixel)) in Hloop.
  destruct Hloop as (rs & Hserved & [= -> ->]). cbn [fst snd].
  destruct (last_wave None rs) as [wv|]; [|discriminate].
  simpl. unfold bind, ret. simpl. intros [= <- <- <-].
  apply (served_effects _ 5 request_effects _ _ _ _ Hserved).
Qed.

(** X11.  A batch that returns has at least one row; it has sent five
    commands for each row and has written no file; the standard output has
    gained at least one line for each row (the line of the star, and what
    IDL printed for the commands). *)
Theorem returning_batch_effects (wave : ndarray) (rows : list ndarray)
    (w w' : world) :
  get_idl_spectra teffs loggs fehs wl_min wl_max resolution norm do_resample
    wl_per_pixel w = (Return (wave, rows), w') ->
  (1 <= List.length rows)%nat
  /\ List.length (calls w')
     = (List.length (calls w) + 5 * List.length rows)%nat
  /\ files w' = files w
  /\ (List.length (stdout w) + List.length rows
      <= List.length (stdout w'))%nat.
Proof.
  unfold get_idl_spectra. unfold bind at 1.
  destruct (for_each (get_idl_spectra_body wl_min wl_max resolution norm
                        wl_per_pixel)
              (enumerate (zip3 teffs loggs fehs)) (None, []) w)
    as [[[wv sp]|e] w1] eqn:Hloop; [|discriminate].
  apply (for_each_returns _ _ (body_collects wl_min wl_max resolution norm
                                 wl_per_pixel)) in Hloop.
  destruct Hloop as (rs & Hserved & [= -> ->]). cbn [fst snd].
  destruct (last_wave None rs) as [wv|] eqn:Hlast; [|discriminate].
  simpl. unfold bind, ret. simpl. intros [= <- <- <-].
  pose proof (served_length _ _ _ _ _ Hserved) as Hlen.
  destruct (served_effects _ 5 request_effects _ _ _ _ Hserved)
    as (H1 & H2 & H3).
  rewrite length_map, Hlen. repeat split; auto.
  apply last_wave_bound in Hlast. rewrite <- Hlen.
  destruct rs; [congruence | simpl; lia].
Qed.

(** X18.  Saving what a batch returned: [save_spectra] leaves, after the
    files there were before the batch, the table of spectra under
    [sample_spectra.csv] and then the wavelengths under
    [sample_wavelengths.csv]; the batch itself wrote nothing. *)
Theorem saved_batch_files (wave : ndarray) (rows : list ndarray)
    (w w' : world) :
  get_idl_spectra teffs loggs fehs wl_min wl_max resolution norm do_resample
    wl_per_pixel w = (Return (wave, rows), w') ->
  exists w'',
    save_spectra wave rows w' = (Return tt, w'')
    /\ files w''
       = (files w ++ [("sample_spectra.csv", Table rows);
                      ("sample_wavelengths.csv", Column wave)])%list
    /\ calls w'' = calls w' /\ stdout w'' = stdout w'.
Proof.
  intros H. apply batch_writes_nothing in H.
  eexists. split; [reflexivity|]. simpl. rewrite H, <- app_assoc.
  repeat split.
Qed.

End Batches_further.

(** ** [idl_init] and [retrieve_standards] *)

Lemma select_rows {A} (f : A -> bool) (l : list A) :
  forall n,
    map snd (select (map f l) (combine (seq n (List.length l)) l))
    = filter f l.
Proof.
  induction l as [|a l IH]; intros n; simpl; [reflexivity|].
  destruct (f a); simpl; now rewrite IH.
Qed.

Lemma select_none {A} (f : A -> bool) (l : list A) :
  forall n,
    Forall (fun r => f r = false) l ->
    select (map f l) (combine (seq n (List.length l)) l) = [].
Proof.
  induction l as [|a l IH]; intros n Hall; simpl; [reflexivity|].
  inversion Hall as [|? ? Ha Hl]; subst. rewrite Ha. now apply IH.
Qed.

(** X12.  The rows [retrieve_standards] loops over: they are the rows of
    the table with [teff < 5500] and [logg > 4.0], in the order of the
    table and as many times as they occur, each under the index it has in
    the table; a row with a NaN in [teff] or in [logg] is left out. *)
Theorem standards_selection (standards : list star) :
  let selected := select (map cool_dwarf standards) (indexed standards) in
  map snd selected = filter cool_dwarf standards
  /\ (forall i r,
        In (i, r) selected
        <-> nth_error standards i = Some r
            /\ below (teff r) 5500 /\ above (logg r) 4)
  /\ (forall i r,
        In (i, r) selected ->
        num_value (teff r) <> None /\ num_value (logg r) <> None).
Proof.
  intros selected. subst selected. split; [|split].
  - apply select_rows.
  - apply cool_dwarfs_selected.
  - intros i r H. apply cool_dwarfs_selected in H.
    destruct H as (_ & Ht & Hl). unfold below, above in *.
    split; intros Hn; rewrite Hn in *; contradiction.
Qed.

Section Standards_further.

Context {E : IDL} {T : TheCannon}.

Lemma bind_ext {A B} (m : M A) (k h : A -> M B) (w : world) :
  (forall a w', k a w' = h a w') -> bind m k w = bind m h w.
Proof.
  intros H. unfold bind. destruct (m w) as [[a|e] w']; auto.
Qed.

Lemma bind_idl_init {B} (k : unit -> M B) (w : world) :
  bind idl_init k w
  = match send_all idl_init_texts (spawned w) with
    | (Return a, w') => k a w'
    | (Raise e, w') => (Raise e, w')
    end.
Proof. unfold bind. rewrite idl_init_sends. reflexivity. Qed.


(** X15.  [retrieve_standards] does not use the handle it is given: it is
    rebound to a new process before the first call, so that the state of
    the process passed in changes nothing. *)
Theorem retrieve_standards_ignores_its_handle (g : properties)
    (standards : list star) (p : process) (w : world) :
  retrieve_standards_with g standards (with_process w p)
  = retrieve_standards_with g standards w.
Proof.
  unfold retrieve_standards_with. rewrite !bind_idl_init. reflexivity.
Qed.

(** X14.  A table without a cool dwarf (an empty table, for one): with a
    process that does not fail, [retrieve_standards] sets IDL up, requests
    nothing, writes [spectra_standards.csv] with no row and then raises
    [UnboundLocalError] for [wave]; [spectra_wavelengths.csv] is not
    written.  This holds whatever the module-level properties are. *)
Theorem retrieve_standards_without_cool_dwarf (g : properties)
    (standards : list star) (w : world) :
  reliable E ->
  Forall (fun r => ~ (below (teff r) 5500 /\ above (logg r) 4)) standards ->
  retrieve_standards_with g standards w
  = (Raise (UnboundLocalError "wave"),
     written (after (spawned w) idl_init_texts)
       [("spectra_standards.csv", Table [])]).
Proof.
  intros Hrel Hall.
  assert (Hsel : select (map cool_dwarf standards) (indexed standards) = []).
  { apply select_none. eapply Forall_impl; [|exact Hall].
    intros r Hr. simpl in Hr. rewrite <- cool_dwarf_spec in Hr.
    now destruct (cool_dwarf r). }
  unfold retrieve_standards_with. fold cool_dwarf.
  change (map (fun r : star => cool_dwarf r) standards)
    with (map cool_dwarf standards).
  rewrite Hsel. unfold bind at 1.
  rewrite idl_init_sends, (send_all_reliable _ _ Hrel). reflexivity.
Qed.

(** The loop of [retrieve_standards] when [wl_per_pixel] is assigned. *)
Lemma standards_loop (g : properties) (step : number) :
  wl_per_pixel g = Some step ->
  exists body,
    collects (standard_request g step) body
    /\ forall standards w,
         retrieve_standards_with g standards w
         = (idl_init ;;
            x <- for_each body
                   (select (map cool_dwarf standards) (indexed standards))
                   (None, []) ;;
            savetxt "spectra_standards.csv" (Table (snd x)) ;;
            wave <- local "wave" (fst x) ;;
            savetxt "spectra_wavelengths.csv" (Column wave) ;;
            the_cannon (training_set standards) (snd x)) w.
Proof.
  intros Hstep.
  exists (fun '(star_i, row) '((_, spectra) : batch) =>
            print (PyFormat.dec (Z.of_nat star_i)) ;;
            wl_per_pixel <- global "wl_per_pixel" (wl_per_pixel g) ;;
            '(wave, spec) <-
               get_idl_spectrum (teff row) (logg row) (feh row)
                 (PyInt (wl_min g)) (PyInt (wl_max g)) (PyInt (resolution g))
                 (PyInt 1) true (VNum wl_per_pixel) ;;
            ret (Some wave, (spectra ++ [spec])%list)).
  split.
  - intros [star_i row] [wv sp] w2. unfold standard_request.
    rewrite Hstep. unfold bind, print, global, ret.
    destruct (get_idl_spectrum _ _ _ _ _ _ _ _ _ _) as [[[a b]|e] w3];
      reflexivity.
  - intros standards w. unfold retrieve_standards_with, cool_dwarf.
    apply bind_ext. intros [] w1.
    apply bind_ext. intros [wv sp] w2. reflexivity.
Qed.

Lemma standard_request_effects (g : properties) (step : number)
    (item : nat * star) (w : world) (r : ndarray * ndarray) (w' : world) :
  standard_request g step item w = (Return r, w') ->
  (List.length (stdout w) < List.length (stdout w'))%nat
  /\ List.length (calls w') = (List.length (calls w) + 5)%nat
  /\ files w' = files w.
Proof.
  destruct item as [star_i row]. destruct r as [a b].
  unfold standard_request. unfold bind at 1. unfold print. intros H.
  apply get_idl_spectrum_resampled in H.
  destruct H as (cmd & grid & _ & _ & -> & _ & _).
  unfold after. simpl. rewrite !length_app. simpl. repeat split; lia.
Qed.

(** X16.  The mask is wider than the domain of the grid: when
    [wl_per_pixel] is assigned and a cool dwarf of the table violates a
    check (a [teff] under 2500 or a [logg] over 5.5, say), the requests for
    the cool dwarfs before it are served and
    [ParameterOutOfBoundsException] then ends [retrieve_standards], with
    the message of the first check violated; nothing is written, the
    spectra of the rows before are dropped and the rows after are not
    requested. *)
Theorem out_of_domain_standard_aborts (g : properties) (step : number)
    (standards : list star) (served_rows rest : list (nat * star))
    (i : nat) (row : star) (rs : list (ndarray * ndarray)) (c : check)
    (w w1 : world) :
  wl_per_pixel g = Some step ->
  reliable E ->
  select (map cool_dwarf standards) (indexed standards)
  = (served_rows ++ (i, row) :: rest)%list ->
  served (standard_request g step) (after (spawned w) idl_init_texts)
    served_rows rs w1 ->
  violated c (teff row) (logg row) (feh row) (PyInt (wl_min g))
    (PyInt (wl_max g)) ->
  (forall d, In d (before c) ->
             ~ violated d (teff row) (logg row) (feh row) (PyInt (wl_min g))
                 (PyInt (wl_max g))) ->
  exists w2,
    retrieve_standards_with g standards w
    = (Raise (ParameterOutOfBoundsException (message c)), w2)
    /\ files w2 = files w
    /\ List.length (calls w2)
       = (List.length (calls w) + 4 + 5 * List.length served_rows)%nat.
Proof.
  intros Hstep Hrel Hsel Hserved Hc Hfirst.
  destruct (standards_loop g step Hstep) as (body & Hbody & Hloop).
  assert (Hraise :
            standard_request g step (i, row) w1
            = (Raise (ParameterOutOfBoundsException (message c)),
               {| idl := idl w1; calls := calls w1;
                  stdout := (stdout w1
                             ++ [PyFormat.dec (Z.of_nat i)])%list;
                  files := files w1 |})).
  { unfold standard_request. unfold bind at 1. unfold print.
    apply get_idl_spectrum_rejected. now apply check_bounds_first. }
  eexists. split.
  - rewrite Hloop. unfold bind at 1.
    rewrite idl_init_sends, (send_all_reliable _ _ Hrel).
    unfold bind at 1. rewrite Hsel.
    rewrite (for_each_raises _ _ Hbody served_rows (i, row) rest (None, [])
               _ rs w1 _ _ Hserved Hraise).
    reflexivity.
  - destruct (served_effects _ 5 (standard_request_effects g step) _ _ _ _
                Hserved) as (_ & H2 & H3).
    simpl. rewrite H2, H3. unfold after, spawned. simpl.
    rewrite length_app. simpl. split; [reflexivity | lia].
Qed.

End Standards_further.

(** ** The further properties on concrete requests *)

(** X1 at [teff = 9000]. *)
Lemma out_of_bounds_only_when_violated_witness :
  exists c,
    message Temperature = message c
    /\ violated c (PyInt 9000) (PyInt 9) (PyInt 3) (PyInt 4000) (PyInt 3000).
Proof.
  destruct (@out_of_bounds_only_when_violated echo_idl (PyInt 9000) (PyInt 9)
              (PyInt 3) (PyInt 4000) (PyInt 3000) (PyInt 7000) (PyInt 1)
              false VNone (message Temperature) w0 w0)
    as (_ & c & H1 & H2 & _).
  - vm_compute. reflexivity.
  - exists c. split; [exact H1 | exact H2].
Defined.

(** X2 on a process that is down: the nominal request fails in IDL. *)
Lemma valid_request_fails_only_in_idl_witness :
  exists msg, IDLError "IDL is down" = IDLError msg.
Proof.
  apply (@valid_request_fails_only_in_idl down_idl (PyInt 5000)
           (py_float 45 10) (py_float 0 10) (PyInt 3600) (PyInt 9000)
           (PyInt 7000) (PyInt 1) true (VNum demo_step)
           (IDLError "IDL is down") (fresh_world down_idl)
           (after (fresh_world down_idl) [CFe_text])).
  - concrete.
  - concrete.
  - exists 7000. reflexivity.
  - exists 1. reflexivity.
  - intros _. exists demo_step. split; [reflexivity|]. eexists. reflexivity.
  - vm_compute. reflexivity.
Defined.

(** X3 on the nominal request with resampling. *)
Lemma get_idl_spectrum_only_sends_commands_witness :
  exists cmds,
    calls (after w0 [CFe_text;
                     get_spec_text 5000 (float_lit 45 10) (float_lit 0 10)
                       3600 9000 7000 1;
                     waveout_text 3600 9000 (float_lit 135 1000);
                     resamp_text; assign_text])
    = (calls w0 ++ cmds)%list
    /\ stdout (after w0 [CFe_text;
                         get_spec_text 5000 (float_lit 45 10)
                           (float_lit 0 10) 3600 9000 7000 1;
                         waveout_text 3600 9000 (float_lit 135 1000);
                         resamp_text; assign_text])
       = (stdout w0 ++ echoed cmds (idl w0))%list
    /\ (List.length cmds <= 5)%nat.
Proof.
  destruct (@get_idl_spectrum_only_sends_commands echo_idl (PyInt 5000)
              (py_float 45 10) (py_float 0 10) (PyInt 3600) (PyInt 9000)
              (PyInt 7000) (PyInt 1) true (VNum demo_step) w0
              (after w0 [CFe_text;
                         get_spec_text 5000 (float_lit 45 10)
                           (float_lit 0 10) 3600 9000 7000 1;
                         waveout_text 3600 9000 (float_lit 135 1000);
                         resamp_text; assign_text])
              (Return (("wave", 5%nat), ("spectrum", 5%nat))))
    as (_ & H).
  - vm_compute. reflexivity.
  - exact H.
Defined.

(** X4 on the nominal request, asked with resampling and no step. *)
Lemma resampling_without_step_raises_after_synthesis_witness :
  exists cmd,
    @get_idl_spectrum echo_idl (PyInt 5000) (py_float 45 10) (py_float 0 10)
      (PyInt 3600) (PyInt 9000) (PyInt 7000) (PyInt 1) true VNone w0
    = (Raise TypeError, after w0 [CFe_text; cmd])
    /\ String.prefix "spectrum = get_spec(" cmd = true.
Proof.
  apply resampling_without_step_raises_after_synthesis.
  - exact echo_idl_reliable.
  - concrete.
  - concrete.
  - exists 7000. reflexivity.
  - exists 1. reflexivity.
Defined.

(** X5 on the nominal request with a NaN gravity. *)
Lemma nan_logg_is_sent_to_idl_witness :
  exists t f a b r n result,
    @get_idl_spectrum echo_idl (PyInt 5000) (PyFloat S754_nan)
      (py_float 0 10) (PyInt 3600) (PyInt 9000) (PyInt 7000) (PyInt 1) false
      VNone w0
    = (Return result,
       after w0 [CFe_text; get_spec_text t S754_nan f a b r n]).
Proof.
  destruct (@nan_logg_is_sent_to_idl echo_idl (PyInt 5000) (py_float 0 10)
              (PyInt 3600) (PyInt 9000) (PyInt 7000) (PyInt 1) VNone w0)
    as (t & f & a & b & r & n & result & H & _).
  - exact echo_idl_reliable.
  - concrete.
  - concrete.
  - concrete.
  - exists 7000. reflexivity.
  - exists 1. reflexivity.
  - exists t, f, a, b, r, n, result. exact H.
Defined.

(** X6 on the nominal request with a NaN temperature. *)
Lemma nan_teff_raises_after_CFe_witness :
  @get_idl_spectrum echo_idl (PyFloat S754_nan) (py_float 45 10)
    (py_float 0 10) (PyInt 3600) (PyInt 9000) (PyInt 7000) (PyInt 1) false
    VNone w0
  = (Raise ValueError, after w0 [CFe_text]).
Proof.
  apply nan_teff_raises_after_CFe.
  - exact echo_idl_reliable.
  - concrete.
  - concrete.
  - concrete.
Defined.


(** X8 on the steps 1/128 and 0.007812. *)
Lemma step_is_sent_as_text_witness :
  @get_idl_spectrum echo_idl (PyInt 5000) (py_float 45 10) (py_float 0 10)
    (PyInt 3600) (PyInt 9000) (PyInt 7000) (PyInt 1) true
    (VNum (py_float 1 128)) w0
  = @get_idl_spectrum echo_idl (PyInt 5000) (py_float 45 10) (py_float 0 10)
      (PyInt 3600) (PyInt 9000) (PyInt 7000) (PyInt 1) true
      (VNum (py_float 7812 1000000)) w0.
Proof.
  apply step_is_sent_as_text. vm_compute. reflexivity.
Defined.

Lemma demo_result_run :
  @get_idl_spectra echo_idl demo_teffs demo_loggs demo_fehs (PyInt 3600)
    (PyInt 9000) (PyInt 7000) (PyInt 1) true (VNum demo_step) w0
  = (Return (fst (fst demo_result), snd (fst demo_result)), snd demo_result).
Proof. vm_compute. reflexivity. Qed.

(** X10 on three sequences of lengths 3, 2 and 2: two rows. *)
Lemma batch_stops_at_shortest_sequence_witness :
  @get_idl_spectra echo_idl (demo_teffs ++ [PyInt 9000]) demo_loggs
    demo_fehs (PyInt 3600) (PyInt 9000) (PyInt 7000) (PyInt 1) true
    (VNum demo_step) w0
  = (Return (fst (fst demo_result), snd (fst demo_result)), snd demo_result)
  /\ List.length (snd (fst demo_result)) = 2%nat.
Proof.
  destruct (@batch_stops_at_shortest_sequence echo_idl (PyInt 3600)
              (PyInt 9000) (PyInt 7000) (PyInt 1) (VNum demo_step)
              (demo_teffs ++ [PyInt 9000]) demo_loggs demo_fehs true w0)
    as [H1 H2].
  assert (H : @get_idl_spectra echo_idl (demo_teffs ++ [PyInt 9000])
                demo_loggs demo_fehs (PyInt 3600) (PyInt 9000) (PyInt 7000)
                (PyInt 1) true (VNum demo_step) w0
              = (Return (fst (fst demo_result), snd (fst demo_result)),
                 snd demo_result)).
  { rewrite H1. exact demo_result_run. }
  split; [exact H|]. exact (H2 _ _ _ H).
Defined.

(** X11 on the two stars. *)
Lemma returning_batch_effects_witness :
  List.length (calls (snd demo_result))
  = (List.length (calls w0) + 5 * List.length (snd (fst demo_result)))%nat
  /\ files (snd demo_result) = files w0
  /\ (List.length (stdout w0) + List.length (snd (fst demo_result))
      <= List.length (stdout (snd demo_result)))%nat.
Proof.
  destruct (@returning_batch_effects echo_idl (PyInt 3600) (PyInt 9000)
              (PyInt 7000) (PyInt 1) (VNum demo_step) demo_teffs demo_loggs
              demo_fehs true _ _ w0 _ demo_result_run)
    as (_ & H1 & H2 & H3).
  split; [exact H1 | split; [exact H2 | exact H3]].
Defined.

(** X18 on the two stars. *)
Lemma saved_batch_files_witness :
  exists w'',
    save_spectra (fst (fst demo_result)) (snd (fst demo_result))
      (snd demo_result) = (Return tt, w'')
    /\ files w''
       = (files w0
          ++ [("sample_spectra.csv", Table (snd (fst demo_result)));
              ("sample_wavelengths.csv", Column (fst (fst demo_result)))])%list.
Proof.
  destruct (@saved_batch_files echo_idl (PyInt 3600) (PyInt 9000)
              (PyInt 7000) (PyInt 1) (VNum demo_step) demo_teffs demo_loggs
              demo_fehs true _ _ w0 _ demo_result_run)
    as (w'' & H1 & H2 & _).
  exists w''. split; [exact H1 | exact H2].
Defined.

(** X12 on the table of three standards. *)
Lemma standards_selection_witness :
  map snd (select (map cool_dwarf demo_standards) (indexed demo_standards))
  = [HD1; HD3]
  /\ In (2%nat, HD3)
        (select (map cool_dwarf demo_standards) (indexed demo_standards)).
Proof.
  destruct (standards_selection demo_standards) as (H1 & H2 & _).
  split.
  - rewrite H1. vm_compute. reflexivity.
  - apply H2. split; [reflexivity|]. concrete.
Defined.

(** X14 on a table with a hotter star only, in the module as written. *)
Lemma retrieve_standards_without_cool_dwarf_witness :
  @retrieve_standards echo_idl demo_cannon [HD2] w0
  = (Raise (UnboundLocalError "wave"),
     written (after (spawned w0) idl_init_texts)
       [("spectra_standards.csv", Table [])]).
Proof.
  apply retrieve_standards_without_cool_dwarf.
  - exact echo_idl_reliable.
  - constructor; [|constructor]. vm_compute. intros [H _]. discriminate.
Defined.

(** X16 on a table whose second cool dwarf has [teff = 2000], with
    [using_echelle] set. *)
Lemma out_of_domain_standard_aborts_witness :
  exists w2,
    @retrieve_standards_with echo_idl demo_cannon (module_properties true)
      [HD1; HD2; HD4; HD3] w0
    = (Raise (ParameterOutOfBoundsException (message Temperature)), w2)
    /\ files w2 = files w0
    /\ List.length (calls w2) = 9%nat.
Proof.
  eapply (@out_of_domain_standard_aborts echo_idl demo_cannon (module_properties true)
            (py_float 3000 40000) [HD1; HD2; HD4; HD3] [(0%nat, HD1)]
            [(3%nat, HD3)] 2%nat HD4 _ Temperature w0).
  - reflexivity.
  - exact echo_idl_reliable.
  - vm_compute. reflexivity.
  - eapply served_cons; [vm_compute; reflexivity | apply served_nil].
  - left. concrete.
  - intros d [].
Defined.

